(** * init_skill.py: the skill scaffolding script

    A shallow embedding of [scripts/init_skill.py] and the properties of
    its specification.

    The script parses its command line with [argparse], computes the
    skill directory with [pathlib], creates that directory and four
    sub-directories, writes nine template files, and prints one progress
    line per step.  The embedding keeps that structure:

    - text is [string] (the UTF-8 bytes of a Python [str]);
    - [pathlib] paths are a record of a root and the list of parts;
    - the file system is a finite map from canonical absolute paths to
      nodes, with the kernel's path walk written out.  Every path has a
      node of its own: there are no symbolic or hard links.  The system
      calls refuse a path for what the walk finds and for a directory
      closed to the process; limits on the length of a name, full disks
      and read-only file systems are not modelled;
    - the script's statements run in a state-and-exception monad over
      the [world]: the file system, the log of [pathlib] calls made and
      the lines printed.  An exception leaves the state reached so far.

    Two Python built-ins whose results depend on the Unicode character
    database, [str.title] and [repr], are taken as the operations of the
    class [PyText]; every theorem holds for any implementation of them. *)

From Stdlib Require Import ZArith Ascii String List Lia.
From stdpp Require Import base tactics option list strings gmap.

Open Scope string_scope.
Open Scope list_scope.

(** ** Text *)

(** The newline character and the double quote, which a literal cannot
    hold. *)
Definition nl : string := String (ascii_of_nat 10) EmptyString.
Definition dq : string := String (ascii_of_nat 34) EmptyString.

(** [quoted s] is [s] between double quotes; [triple] is Python's
    triple-quote mark as it stands inside the templates. *)
Definition quoted (s : string) : string := dq +:+ s +:+ dq.
Definition triple : string := dq +:+ dq +:+ dq.

(** A template given line by line: every line is followed by a newline. *)
Fixpoint text_of_lines (ls : list string) : string :=
  match ls with
  | [] => EmptyString
  | l :: ls' => l +:+ nl +:+ text_of_lines ls'
  end.

(** [sep.join(xs)]. *)
Fixpoint str_join (sep : string) (xs : list string) : string :=
  match xs with
  | [] => EmptyString
  | [x] => x
  | x :: xs' => x +:+ sep +:+ str_join sep xs'
  end.

(** [s.split(sep)] for a one-character separator. *)
Fixpoint str_split (sep : ascii) (s : string) : list string :=
  match s with
  | EmptyString => [EmptyString]
  | String c s' =>
      if Ascii.eqb c sep then EmptyString :: str_split sep s'
      else match str_split sep s' with
           | [] => [String c EmptyString]
           | x :: xs => String c x :: xs
           end
  end.

(** [s.lstrip(c)]. *)
Fixpoint str_lstrip (c : ascii) (s : string) : string :=
  match s with
  | String d s' => if Ascii.eqb d c then str_lstrip c s' else s
  | EmptyString => EmptyString
  end.

(** [s.replace(a, b)] for one-character [a] and [b]. *)
Fixpoint str_replace (a b : ascii) (s : string) : string :=
  match s with
  | EmptyString => EmptyString
  | String c s' => String (if Ascii.eqb c a then b else c) (str_replace a b s')
  end.

(** [s.startswith(p)]. *)
Fixpoint str_startswith (s p : string) {struct p} : bool :=
  match p, s with
  | EmptyString, _ => true
  | String a p', String b s' => Ascii.eqb b a && str_startswith s' p'
  | String _ _, EmptyString => false
  end.

(** [sub in s]. *)
Fixpoint str_contains (sub s : string) : bool :=
  str_startswith s sub ||
  match s with
  | EmptyString => false
  | String _ s' => str_contains sub s'
  end.


Definition string_eqb (a b : string) : bool := bool_decide (a = b).

(** The operations of Python's [str] that consult the Unicode character
    database. *)
Class PyText := {
  (** [s.title()] *)
  str_title : string -> string;
  (** [repr(s)] *)
  str_repr : string -> string
}.

(** ** pathlib *)

Module pathlib.

(** A [PurePosixPath]: the root is empty, one slash or two slashes; the
    parts are the components after it, none of them empty or a dot. *)
Record Path := mkPath { root : string; parts : list string }.

(** [splitroot]: two leading slashes are kept, any other number of them
    is one. *)
Definition splitroot (part : string) : string * string :=
  match part with
  | String "/" _ =>
      let stripped := str_lstrip "/" part in
      if Nat.eqb (String.length part - String.length stripped) 2
      then ("//", stripped) else ("/", stripped)
  | _ => (EmptyString, part)
  end.

Definition is_part (x : string) : bool :=
  negb (string_eqb x EmptyString) && negb (string_eqb x ".").

(** [Path(s)] *)
Definition of_str (s : string) : Path :=
  let '(r, rel) := splitroot s in
  mkPath r (List.filter is_part (str_split "/" rel)).

(** [p / s]: an anchored right operand replaces the left one. *)
Definition joinpath (p : Path) (s : string) : Path :=
  let q := of_str s in
  if string_eqb (root q) EmptyString
  then mkPath (root p) (parts p ++ parts q)
  else q.

(** [str(p)] *)
Definition to_str (p : Path) : string :=
  match root p, parts p with
  | EmptyString, [] => "."
  | r, ps => r +:+ str_join "/" ps
  end.

(** [p.parent] *)
Definition parent (p : Path) : Path := mkPath (root p) (removelast (parts p)).

End pathlib.

Abbreviation Path := pathlib.Path.
Infix "//" := pathlib.joinpath (at level 40, left associativity).

(** ** The file system and the process state *)

(** A node of the file system: a regular file with its content, or a
    directory.  The entries of a directory are the keys one component
    longer than its own. *)
Inductive node := File (content : string) | Dir.

(** The error numbers the modelled system calls return. *)
Inductive errno := EACCES | EEXIST | EISDIR | ENOENT | ENOTDIR.

(** Python's [OSError] with its [errno] and [filename]. *)
Inductive exn := OSError (e : errno) (filename : option string).

Inductive stream := Stdout | Stderr.

(** The [pathlib] calls the script makes, with their arguments. *)
Inductive fs_call :=
| MkdirCall (p : Path) (parents exist_ok : bool)
| WriteTextCall (p : Path) (data : string).

(** The state a run reads and changes.  Keys of [fs] are canonical
    absolute paths, the root directory being the empty list; a
    component is the name of an entry.  [protected] holds the
    directories in which the process may not create an entry.  [cwd] is
    the working directory.  [calls] logs the script's [pathlib] calls in
    the order they were made, and [out] the texts the script printed,
    one for each call of [print], each with its stream. *)
Record world := mkWorld {
  fs : gmap (list string) node;
  protected : gset (list string);
  cwd : list string;
  calls : list fs_call;
  out : list (stream * string)
}.

Definition set_fs (m : gmap (list string) node) (w : world) : world :=
  mkWorld m (protected w) (cwd w) (calls w) (out w).

Definition log_call (c : fs_call) (w : world) : world :=
  mkWorld (fs w) (protected w) (cwd w) (calls w ++ [c]) (out w).

Definition emit (s : stream) (line : string) (w : world) : world :=
  mkWorld (fs w) (protected w) (cwd w) (calls w) (out w ++ [(s, line)]).

(** What a path walk ends in: an existing node, a free name in an
    existing directory, or an error. *)
Inductive lookup :=
| Found (canon : list string) (n : node)
| Vacant (canon : list string)
| Fails (e : errno).

(** The kernel's walk from the directory [cur] along [ps].  Every
    component but the last must lead to an existing directory; [..]
    leads to the parent, and the root is its own parent. *)
Fixpoint walk (m : gmap (list string) node) (cur : list string)
    (ps : list string) : lookup :=
  match m !! cur with
  | None => Fails ENOENT
  | Some n =>
      match ps with
      | [] => Found cur n
      | c :: rest =>
          match n with
          | File _ => Fails ENOTDIR
          | Dir =>
              if string_eqb c ".." then walk m (removelast cur) rest
              else
                match m !! (cur ++ [c]) with
                | Some _ => walk m (cur ++ [c]) rest
                | None =>
                    match rest with
                    | [] => Vacant (cur ++ [c])
                    | _ :: _ => Fails ENOENT
                    end
                end
          end
      end
  end.

(** A relative path is walked from the working directory, an anchored
    one from the root. *)
Definition start_dir (w : world) (p : Path) : list string :=
  if string_eqb (pathlib.root p) EmptyString then cwd w else [].

Definition resolve (w : world) (p : Path) : lookup :=
  walk (fs w) (start_dir w p) (pathlib.parts p).

(** ** The monad of the script's statements *)

Inductive result (A : Type) :=
| Ok (a : A)
| Raise (e : exn).
Arguments Ok {A} a.
Arguments Raise {A} e.

(** A statement maps the state to its outcome and the state it leaves;
    after [Raise] that is the state reached when the exception was
    raised. *)
Definition M (A : Type) : Type := world -> result A * world.

Definition ret {A} (a : A) : M A := fun w => (Ok a, w).

Definition bind {A B} (m : M A) (k : A -> M B) : M B :=
  fun w =>
    match m w with
    | (Ok a, w') => k a w'
    | (Raise e, w') => (Raise e, w')
    end.

Definition raise {A} (e : exn) : M A := fun w => (Raise e, w).

(** [try: m  except OSError as e: h e] *)
Definition catch {A} (m : M A) (h : exn -> M A) : M A :=
  fun w =>
    match m w with
    | (Ok a, w') => (Ok a, w')
    | (Raise e, w') => h e w'
    end.

Declare Scope py_scope.
Delimit Scope py_scope with py.
Notation "x <- m ;; k" := (bind m (fun x => k))
  (at level 100, m at next level, right associativity) : py_scope.
Notation "m ;; k" := (bind m (fun _ => k))
  (at level 100, right associativity) : py_scope.
Open Scope py_scope.

(** [for x in xs: body x] *)
Fixpoint for_each {A} (xs : list A) (body : A -> M unit) : M unit :=
  match xs with
  | [] => ret tt
  | x :: xs' => body x ;; for_each xs' body
  end.

(** [print(line)] *)
Definition print (line : string) : M unit := fun w => (Ok tt, emit Stdout line w).

(** ** System calls and pathlib's methods on them *)

Definition os_error {A} (e : errno) (p : Path) : M A :=
  raise (OSError e (Some (pathlib.to_str p))).

(** [os.mkdir(p)], with the errors [EEXIST], [EACCES], [ENOENT] and
    [ENOTDIR]. *)
Definition os_mkdir (p : Path) : M unit :=
  fun w =>
    match resolve w p with
    | Found _ _ => os_error EEXIST p w
    | Vacant c =>
        if bool_decide (removelast c ∈ protected w) then os_error EACCES p w
        else (Ok tt, set_fs (<[c := Dir]> (fs w)) w)
    | Fails e => os_error e p w
    end.

(** [open(p, 'w')], writing [data] and closing: the file is created or
    truncated.  The write reaches the node at the path and no other,
    there being no links. *)
Definition os_write (p : Path) (data : string) : M unit :=
  fun w =>
    match resolve w p with
    | Found c (File _) => (Ok tt, set_fs (<[c := File data]> (fs w)) w)
    | Found _ Dir => os_error EISDIR p w
    | Vacant c =>
        if bool_decide (removelast c ∈ protected w) then os_error EACCES p w
        else (Ok tt, set_fs (<[c := File data]> (fs w)) w)
    | Fails e => os_error e p w
    end.

(** [p.is_dir()] *)
Definition is_dir (p : Path) : M bool :=
  fun w =>
    (Ok match resolve w p with Found _ Dir => true | _ => false end, w).

Definition is_ENOENT (e : exn) : bool :=
  match e with OSError ENOENT _ => true | _ => false end.

(** The second handler of [Path.mkdir]: any other [OSError] is dropped
    when [exist_ok] is set and the path is a directory. *)
Definition mkdir_except (p : Path) (exist_ok : bool) (e : exn) : M unit :=
  d <- is_dir p ;;
  if negb exist_ok || negb d then raise e else ret tt.

(** [p.mkdir(parents=False, exist_ok=exist_ok)] *)
Definition mkdir_single (p : Path) (exist_ok : bool) : M unit :=
  catch (os_mkdir p)
    (fun e => if is_ENOENT e then raise e else mkdir_except p exist_ok e).

(** [p.mkdir(parents=True, exist_ok=exist_ok)] for the path of root [r]
    whose parts, last first, are [rparts]: on [FileNotFoundError] the
    parent is made first, unless the path is its own parent. *)
Fixpoint mkdir_parents (r : string) (rparts : list string) (exist_ok : bool)
    : M unit :=
  let p := pathlib.mkPath r (rev rparts) in
  catch (os_mkdir p)
    (fun e =>
       if is_ENOENT e then
         match rparts with
         | [] => raise e
         | _ :: up => mkdir_parents r up true ;; mkdir_single p exist_ok
         end
       else mkdir_except p exist_ok e).

(** [p.mkdir(parents=parents, exist_ok=exist_ok)], as the script calls it. *)
Definition Path_mkdir (p : Path) (parents exist_ok : bool) : M unit :=
  fun w =>
    let w := log_call (MkdirCall p parents exist_ok) w in
    if parents
    then mkdir_parents (pathlib.root p) (rev (pathlib.parts p)) exist_ok w
    else mkdir_single p exist_ok w.

(** [p.write_text(data)], as the script calls it. *)
Definition Path_write_text (p : Path) (data : string) : M unit :=
  fun w => os_write p data (log_call (WriteTextCall p data) w).

(** [Path.cwd()]: [os.getcwd] fails when the working directory is gone. *)
Definition Path_cwd : M Path :=
  fun w =>
    match fs w !! cwd w with
    | Some Dir => (Ok (pathlib.mkPath "/" (cwd w)), w)
    | _ => (Raise (OSError ENOENT None), w)
    end.

(** ** argparse *)

(** The parser [main] builds: the positional [skill_name], the option
    [--path] taking one argument, and the [-h]/[--help] option argparse
    adds.  [parse_args] follows [ArgumentParser.parse_args] of CPython
    3.11 for this parser; what argparse itself prints (usage, help) is
    not recorded.  Digits are the ASCII ones: a hyphen before a digit of
    another script is not read as a negative number here. *)
Module argparse.

Inductive action := HelpAction | PathAction.

Definition option_string_actions : list (string * action) :=
  [("-h", HelpAction); ("--help", HelpAction); ("--path", PathAction)].

Inductive arg_kind :=
| Positional
| Separator
| Optional (a : action) (option_string : string) (explicit_arg : option string)
| Unknown
| Ambiguous.

Definition find_action (s : string) : option action :=
  snd <$> List.find (fun oa => string_eqb (fst oa) s) option_string_actions.

(** [s.split('=', 1)] when [s] holds an equals sign. *)
Fixpoint split_eq (s : string) : option (string * string) :=
  match s with
  | EmptyString => None
  | String c s' =>
      if Ascii.eqb c "=" then Some (EmptyString, s')
      else match split_eq s' with
           | Some (a, b) => Some (String c a, b)
           | None => None
           end
  end.

Definition is_digit (c : ascii) : bool :=
  let n := nat_of_ascii c in (48 <=? n)%nat && (n <=? 57)%nat.

Fixpoint all_chars (f : ascii -> bool) (s : string) : bool :=
  match s with
  | EmptyString => true
  | String c s' => f c && all_chars f s'
  end.

Definition digits1 (s : string) : bool :=
  negb (string_eqb s EmptyString) && all_chars is_digit s.

Fixpoint drop_digits (s : string) : string :=
  match s with
  | String c s' => if is_digit c then drop_digits s' else s
  | EmptyString => EmptyString
  end.

(** A final newline does not count for [$]. *)
Fixpoint chomp (s : string) : string :=
  match s with
  | EmptyString => EmptyString
  | String c EmptyString => if Ascii.eqb c (ascii_of_nat 10) then EmptyString else s
  | String c s' => String c (chomp s')
  end.

(** The pattern [^-\d+$|^-\d*\.\d+$]. *)
Definition negative_number (s : string) : bool :=
  match chomp s with
  | String "-" t =>
      digits1 t ||
      match drop_digits t with
      | String "." u => digits1 u
      | _ => false
      end
  | _ => false
  end.

Definition kinds_of (ts : list arg_kind) (otherwise : arg_kind) : arg_kind :=
  match ts with
  | [] => otherwise
  | [t] => t
  | _ :: _ :: _ => Ambiguous
  end.

(** [_get_option_tuples]: the option strings an abbreviated long option
    is a prefix of, or the short option glued to its argument. *)
Definition get_option_tuples (arg : string) : list arg_kind :=
  match arg with
  | String "-" (String "-" _) =>
      let '(option_prefix, explicit_arg) :=
        match split_eq arg with
        | Some (a, b) => (a, Some b)
        | None => (arg, None)
        end in
      omap (fun oa : string * action =>
              if str_startswith (fst oa) option_prefix
              then Some (Optional (snd oa) (fst oa) explicit_arg) else None)
           option_string_actions
  | String "-" (String c rest) =>
      let short_option_prefix := String "-" (String c EmptyString) in
      omap (fun oa : string * action =>
              if string_eqb (fst oa) short_option_prefix
              then Some (Optional (snd oa) (fst oa) (Some rest))
              else if str_startswith (fst oa) arg
              then Some (Optional (snd oa) (fst oa) None) else None)
           option_string_actions
  | _ => []
  end.

(** [_parse_optional] *)
Definition parse_optional (arg : string) : arg_kind :=
  match arg with
  | EmptyString => Positional
  | String c _ =>
      if negb (Ascii.eqb c "-") then Positional
      else
        match find_action arg with
        | Some a => Optional a arg None
        | None =>
            if Nat.eqb (String.length arg) 1 then Positional
            else
              let exact :=
                match split_eq arg with
                | Some (option_string, explicit_arg) =>
                    (fun a => Optional a option_string (Some explicit_arg))
                      <$> find_action option_string
                | None => None
                end in
              match exact with
              | Some k => k
              | None =>
                  kinds_of (get_option_tuples arg)
                    (if negative_number arg then Positional
                     else if str_contains " " arg then Positional
                     else Unknown)
              end
        end
  end.

(** The first pass: every string after [--] is an argument. *)
Fixpoint classify (args : list string) : list (string * arg_kind) :=
  match args with
  | [] => []
  | a :: rest =>
      if string_eqb a "--"
      then (a, Separator) :: List.map (fun x => (x, Positional)) rest
      else (a, parse_optional a) :: classify rest
  end.

Inductive outcome :=
| Namespace (skill_name : string) (path : option string)
| SystemExit (code : Z).

Definition is_ambiguous (t : string * arg_kind) : bool :=
  match snd t with Ambiguous => true | _ => false end.

(** [_get_values] drops a [--] from the strings of an argument.  For
    [--path=--] none is left and the value is the empty list; the script
    tests the value for truth and does nothing else with a false one,
    so the empty list is recorded as the other false value a string
    argument can have, the empty string. *)
Definition path_value (explicit_arg : string) : string :=
  if string_eqb explicit_arg "--" then EmptyString else explicit_arg.

(** The second pass, left to right.  [name] and [path] are the values
    taken so far, [extras] tells whether a string was left over.  The
    pattern of the positional takes the separator before or after its
    string; the pattern of an option takes no separator. *)
Fixpoint consume (toks : list (string * arg_kind)) (name path : option string)
    (extras : bool) : outcome :=
  match toks with
  | [] =>
      match name with
      | None => SystemExit 2
      | Some n => if extras then SystemExit 2 else Namespace n path
      end
  | (s, Positional) :: rest =>
      match name with
      | None =>
          match rest with
          | (_, Separator) :: rest' => consume rest' (Some s) path extras
          | _ => consume rest (Some s) path extras
          end
      | Some _ => consume rest name path true
      end
  | (_, Separator) :: rest =>
      match name, rest with
      | None, (s, _) :: rest' => consume rest' (Some s) path extras
      | _, _ => consume rest name path true
      end
  | (_, Optional PathAction _ (Some v)) :: rest =>
      consume rest name (Some (path_value v)) extras
  | (_, Optional PathAction _ None) :: rest =>
      match rest with
      | (v, Positional) :: rest' => consume rest' name (Some v) extras
      | _ => SystemExit 2
      end
  | (_, Optional HelpAction _ None) :: _ => SystemExit 0
  | (_, Optional HelpAction o (Some e)) :: _ =>
      if string_eqb o "-h" && negb (string_eqb e EmptyString)
         && all_chars (Ascii.eqb "h") e
      then SystemExit 0 else SystemExit 2
  | (_, Unknown) :: rest => consume rest name path true
  | (_, Ambiguous) :: _ => SystemExit 2
  end.

(** [parser.parse_args()] on [sys.argv[1:]] *)
Definition parse_args (argv : list string) : outcome :=
  let toks := classify argv in
  if existsb is_ambiguous toks then SystemExit 2
  else consume toks None None false.

End argparse.


(** ** The script *)

Section Script.

Context `{PyText}.

(** [str(e)] for an [OSError]. *)
Definition errno_code (e : errno) : string :=
  match e with
  | EACCES => "13" | EEXIST => "17" | EISDIR => "21"
  | ENOENT => "2" | ENOTDIR => "20"
  end.

Definition strerror (e : errno) : string :=
  match e with
  | EACCES => "Permission denied"
  | EEXIST => "File exists"
  | EISDIR => "Is a directory"
  | ENOENT => "No such file or directory"
  | ENOTDIR => "Not a directory"
  end.

Definition exn_str (e : exn) : string :=
  match e with
  | OSError n filename =>
      "[Errno " +:+ errno_code n +:+ "] " +:+ strerror n +:+
      match filename with
      | Some f => ": " +:+ str_repr f
      | None => EmptyString
      end
  end.

(** [README.md] *)
Definition readme_content (skill_name : string) : string :=
  text_of_lines [
    "# " +:+ skill_name;
    "";
    "## Description";
    "";
    "A brief description of what this skill does.";
    "";
    "## Installation";
    "";
    "```bash";
    "# Add installation instructions here";
    "```";
    "";
    "## Usage";
    "";
    "```bash";
    "# Add usage examples here";
    "```";
    "";
    "## Features";
    "";
    "- Feature 1";
    "- Feature 2";
    "- Feature 3";
    "";
    "## Configuration";
    "";
    "Describe any configuration options here.";
    "";
    "## Examples";
    "";
    "See the `examples/` directory for usage examples.";
    "";
    "## Testing";
    "";
    "```bash";
    "# Add testing instructions here";
    "```";
    "";
    "## License";
    "";
    "MIT"
  ].

(** [skill.json] *)
Definition skill_json_content (skill_name : string) : string :=
  text_of_lines [
    "{";
    "  " +:+ quoted "name" +:+ ": " +:+ quoted skill_name +:+ ",";
    "  " +:+ quoted "version" +:+ ": " +:+ quoted "0.1.0" +:+ ",";
    "  " +:+ quoted "description" +:+ ": " +:+ quoted ("Description of " +:+ skill_name) +:+ ",";
    "  " +:+ quoted "author" +:+ ": " +:+ quoted "" +:+ ",";
    "  " +:+ quoted "license" +:+ ": " +:+ quoted "MIT" +:+ ",";
    "  " +:+ quoted "main" +:+ ": " +:+ quoted "src/main.py" +:+ ",";
    "  " +:+ quoted "dependencies" +:+ ": {}";
    "}"
  ].

(** [src/main.py] *)
Definition main_py_content (skill_name : string) : string :=
  text_of_lines [
    triple;
    "Main entry point for " +:+ skill_name +:+ " skill.";
    triple;
    "";
    "def main():";
    "    " +:+ triple;
    "    Main function for the skill.";
    "    " +:+ triple;
    "    print(" +:+ quoted ("Hello from " +:+ skill_name +:+ "!") +:+ ")";
    "    # Add your skill logic here";
    "";
    "if __name__ == " +:+ quoted "__main__" +:+ ":";
    "    main()"
  ].

(** [.gitignore] *)
Definition gitignore_content : string :=
  text_of_lines [
    "# Python";
    "__pycache__/";
    "*.py[cod]";
    "*$py.class";
    "*.so";
    ".Python";
    "env/";
    "venv/";
    "ENV/";
    "build/";
    "develop-eggs/";
    "dist/";
    "downloads/";
    "eggs/";
    ".eggs/";
    "lib/";
    "lib64/";
    "parts/";
    "sdist/";
    "var/";
    "wheels/";
    "*.egg-info/";
    ".installed.cfg";
    "*.egg";
    "";
    "# IDE";
    ".vscode/";
    ".idea/";
    "*.swp";
    "*.swo";
    "*~";
    "";
    "# OS";
    ".DS_Store";
    "Thumbs.db";
    "";
    "# Testing";
    ".pytest_cache/";
    ".coverage";
    "htmlcov/";
    "";
    "# Logs";
    "*.log"
  ].

(** [tests/test_main.py] *)
Definition test_content (skill_name : string) : string :=
  text_of_lines [
    triple;
    "Test suite for " +:+ skill_name +:+ ".";
    triple;
    "";
    "import unittest";
    "from src.main import main";
    "";
    "";
    "class Test" +:+ str_title (str_replace "-" "_" skill_name) +:+ "(unittest.TestCase):";
    "    " +:+ triple +:+ "Test cases for " +:+ skill_name +:+ "." +:+ triple;
    "";
    "    def test_main(self):";
    "        " +:+ triple +:+ "Test the main function." +:+ triple;
    "        # Add your tests here";
    "        self.assertTrue(True)";
    "";
    "";
    "if __name__ == " +:+ quoted "__main__" +:+ ":";
    "    unittest.main()"
  ].

(** [examples/example.md] *)
Definition example_content (skill_name : string) : string :=
  text_of_lines [
    "# Example Usage of " +:+ skill_name;
    "";
    "This directory contains example usage of the " +:+ skill_name +:+ " skill.";
    "";
    "## Basic Example";
    "";
    "```python";
    "from src.main import main";
    "";
    "main()";
    "```";
    "";
    "Add more examples as needed."
  ].

(** [docs/api.md] *)
Definition docs_content (skill_name : string) : string :=
  text_of_lines [
    "# " +:+ skill_name +:+ " Documentation";
    "";
    "## Overview";
    "";
    "Detailed documentation for " +:+ skill_name +:+ ".";
    "";
    "## API Reference";
    "";
    "### main()";
    "";
    "Main function for the skill.";
    "";
    "**Returns:**";
    "- None";
    "";
    "**Example:**";
    "```python";
    "from src.main import main";
    "main()";
    "```";
    "";
    "## Advanced Usage";
    "";
    "Add advanced usage documentation here."
  ].

(** [src/__init__.py]: the text of the f-string on one source line, whose
    escapes are written with two backslashes. *)
Definition init_py_content (skill_name : string) : string :=
  triple +:+ "\n" +:+ skill_name +:+ " skill package.\n" +:+ triple +:+ "\n".

Definition directories : list string := ["src"; "tests"; "docs"; "examples"].

(** A truthy [Optional[str]]: neither [None] nor the empty string. *)
Definition truthy (o : option string) : bool :=
  match o with
  | Some s => negb (string_eqb s EmptyString)
  | None => false
  end.

(** The first statement of [create_skill_structure]: the skill
    directory. *)
Definition determine_skill_dir (skill_name : string) (base_path : option string)
    : M Path :=
  if truthy base_path
  then ret (pathlib.of_str (default EmptyString base_path))
  else c <- Path_cwd ;; ret (c // skill_name).

(** The lines that close a successful run. *)
Definition report (skill_name : string) (skill_dir : Path) : M unit :=
  print (nl +:+ "✅ Skill '" +:+ skill_name +:+ "' initialized successfully at: "
         +:+ pathlib.to_str skill_dir) ;;
  print (nl +:+ "Next steps:") ;;
  print ("  1. cd " +:+ pathlib.to_str skill_dir) ;;
  print "  2. Edit src/main.py to implement your skill logic" ;;
  print "  3. Update README.md with your skill's documentation" ;;
  print "  4. Add tests in tests/test_main.py".

Definition create_skill_structure (skill_name : string)
    (base_path : option string) : M unit :=
  skill_dir <- determine_skill_dir skill_name base_path ;;
  Path_mkdir skill_dir true true ;;
  print ("✓ Created skill directory: " +:+ pathlib.to_str skill_dir) ;;
  for_each directories (fun directory =>
    let dir_path := skill_dir // directory in
    Path_mkdir dir_path false true ;;
    print ("✓ Created directory: " +:+ directory +:+ "/")) ;;
  let readme_path := skill_dir // "README.md" in
  Path_write_text readme_path (readme_content skill_name) ;;
  print "✓ Created README.md" ;;
  let skill_json_path := skill_dir // "skill.json" in
  Path_write_text skill_json_path (skill_json_content skill_name) ;;
  print "✓ Created skill.json" ;;
  let main_py_path := skill_dir // "src" // "main.py" in
  Path_write_text main_py_path (main_py_content skill_name) ;;
  print "✓ Created src/main.py" ;;
  let init_py_path := skill_dir // "src" // "__init__.py" in
  Path_write_text init_py_path (init_py_content skill_name) ;;
  print "✓ Created src/__init__.py" ;;
  let gitignore_path := skill_dir // ".gitignore" in
  Path_write_text gitignore_path gitignore_content ;;
  print "✓ Created .gitignore" ;;
  let test_path := skill_dir // "tests" // "test_main.py" in
  Path_write_text test_path (test_content skill_name) ;;
  print "✓ Created tests/test_main.py" ;;
  let test_init_path := skill_dir // "tests" // "__init__.py" in
  Path_write_text test_init_path EmptyString ;;
  print "✓ Created tests/__init__.py" ;;
  let example_path := skill_dir // "examples" // "example.md" in
  Path_write_text example_path (example_content skill_name) ;;
  print "✓ Created examples/example.md" ;;
  let docs_path := skill_dir // "docs" // "api.md" in
  Path_write_text docs_path (docs_content skill_name) ;;
  print "✓ Created docs/api.md" ;;
  report skill_name skill_dir.

(** *** The scaffold plan of the specification

    The specification derives from a request an ordered sequence of
    pairs of a relative path and a content or a directory.  The script
    has no such value; [scaffold_plan] follows the specification, and
    [create_skill_structure_plan] below shows the script to run it. *)
Definition scaffold_plan (skill_name : string) : list (list string * node) :=
  [ (["src"], Dir);
    (["tests"], Dir);
    (["docs"], Dir);
    (["examples"], Dir);
    (["README.md"], File (readme_content skill_name));
    (["skill.json"], File (skill_json_content skill_name));
    (["src"; "main.py"], File (main_py_content skill_name));
    (["src"; "__init__.py"], File (init_py_content skill_name));
    ([".gitignore"], File gitignore_content);
    (["tests"; "test_main.py"], File (test_content skill_name));
    (["tests"; "__init__.py"], File EmptyString);
    (["examples"; "example.md"], File (example_content skill_name));
    (["docs"; "api.md"], File (docs_content skill_name)) ].

(** The path of a plan entry under the skill directory, the call that
    makes the entry and the line printed after it. *)
Definition entry_path (skill_dir : Path) (rel : list string) : Path :=
  fold_left pathlib.joinpath rel skill_dir.

Definition entry_call (skill_dir : Path) (e : list string * node) : fs_call :=
  match snd e with
  | Dir => MkdirCall (entry_path skill_dir (fst e)) false true
  | File data => WriteTextCall (entry_path skill_dir (fst e)) data
  end.

Definition progress_line (e : list string * node) : string :=
  match snd e with
  | Dir => "✓ Created directory: " +:+ str_join "/" (fst e) +:+ "/"
  | File _ => "✓ Created " +:+ str_join "/" (fst e)
  end.

(** The steps of a run on [skill_dir]: each call with its progress line,
    the skill directory first. *)
Definition script_steps (skill_name : string) (skill_dir : Path)
    : list (fs_call * string) :=
  (MkdirCall skill_dir true true,
   "✓ Created skill directory: " +:+ pathlib.to_str skill_dir)
  :: List.map (fun e => (entry_call skill_dir e, progress_line e))
       (scaffold_plan skill_name).

Definition exec_call (c : fs_call) : M unit :=
  match c with
  | MkdirCall p parents exist_ok => Path_mkdir p parents exist_ok
  | WriteTextCall p data => Path_write_text p data
  end.

Fixpoint run_steps (steps : list (fs_call * string)) : M unit :=
  match steps with
  | [] => ret tt
  | (c, line) :: rest => exec_call c ;; print line ;; run_steps rest
  end.


(** The lines of the success report, as [report] prints them. *)
Definition report_lines (skill_name : string) (skill_dir : Path) : list string :=
  [ nl +:+ "✅ Skill '" +:+ skill_name +:+ "' initialized successfully at: "
       +:+ pathlib.to_str skill_dir;
    nl +:+ "Next steps:";
    "  1. cd " +:+ pathlib.to_str skill_dir;
    "  2. Edit src/main.py to implement your skill logic";
    "  3. Update README.md with your skill's documentation";
    "  4. Add tests in tests/test_main.py" ].

(** [main()] on the argument strings [argv]: the exit status of the
    process and the state it leaves. *)
Definition main (argv : list string) (w : world) : Z * world :=
  match argparse.parse_args argv with
  | argparse.SystemExit code => (code, w)
  | argparse.Namespace skill_name path =>
      match create_skill_structure skill_name path w with
      | (Ok _, w') => (0%Z, w')
      | (Raise e, w') => (1%Z, emit Stderr ("❌ Error: " +:+ exn_str e) w')
      end
  end.

End Script.

(** ** A sample implementation of the text operations

    [ascii_title] and [ascii_repr] are [str.title] and [repr] on ASCII
    text; they instantiate the theorems on concrete runs. *)

Definition is_upper (c : ascii) : bool :=
  let n := nat_of_ascii c in (65 <=? n)%nat && (n <=? 90)%nat.
Definition is_lower (c : ascii) : bool :=
  let n := nat_of_ascii c in (97 <=? n)%nat && (n <=? 122)%nat.
Definition to_upper (c : ascii) : ascii :=
  if is_lower c then ascii_of_nat (nat_of_ascii c - 32) else c.
Definition to_lower (c : ascii) : ascii :=
  if is_upper c then ascii_of_nat (nat_of_ascii c + 32) else c.

Fixpoint title_from (previous_is_cased : bool) (s : string) : string :=
  match s with
  | EmptyString => EmptyString
  | String c s' =>
      String (if previous_is_cased then to_lower c else to_upper c)
             (title_from (is_upper c || is_lower c) s')
  end.

Definition ascii_title (s : string) : string := title_from false s.

Definition hex_digit (n : nat) : ascii :=
  if (n <? 10)%nat then ascii_of_nat (48 + n) else ascii_of_nat (87 + n).

Definition repr_char (quote : ascii) (c : ascii) : string :=
  let n := nat_of_ascii c in
  if Ascii.eqb c "\" then "\\"
  else if Ascii.eqb c quote then String "\" (String c EmptyString)
  else if Nat.eqb n 10 then "\n"
  else if Nat.eqb n 13 then "\r"
  else if Nat.eqb n 9 then "\t"
  else if (n <? 32)%nat || Nat.eqb n 127
  then "\x" +:+ String (hex_digit (n / 16)) (String (hex_digit (n mod 16)) EmptyString)
  else String c EmptyString.

Fixpoint repr_body (quote : ascii) (s : string) : string :=
  match s with
  | EmptyString => EmptyString
  | String c s' => repr_char quote c +:+ repr_body quote s'
  end.

Definition ascii_repr (s : string) : string :=
  let quote :=
    if str_contains "'" s && negb (str_contains dq s)
    then ascii_of_nat 34 else "'"%char in
  String quote (repr_body quote s) +:+ String quote EmptyString.

Definition ascii_text : PyText :=
  {| str_title := ascii_title; str_repr := ascii_repr |}.

(** A file system with the directories [/], [/home] and [/home/u], the
    last being the working directory. *)
Definition home_world : world :=
  mkWorld (<[ ["home"; "u"] := Dir ]> (<[ ["home"] := Dir ]> {[ [] := Dir ]}))
          ∅ ["home"; "u"] [] [].

(** The file system after the entries of a plan were put under the
    directory [D], in the order of the plan. *)
Definition after_plan (D : list string) (plan : list (list string * node))
    (m : gmap (list string) node) : gmap (list string) node :=
  fold_left (fun m e => <[D ++ fst e := snd e]> m) plan m.

Definition on_stdout (line : string) : stream * string := (Stdout, line).

(** The lines of [out] on one stream. *)
Definition lines_on (s : stream) (o : list (stream * string)) : list string :=
  omap (fun x : stream * string =>
          match s, fst x with
          | Stdout, Stdout | Stderr, Stderr => Some (snd x)
          | _, _ => None
          end) o.

(** A component that names an entry: not empty, no dot, no two dots, no
    slash. *)
Definition plain (c : string) : Prop :=
  pathlib.of_str c = pathlib.mkPath EmptyString [c] /\ c <> "..".

(** What a call or a statement leaves alone: the protected directories
    and the working directory. *)
Definition same_process (w w' : world) : Prop :=
  protected w' = protected w /\ cwd w' = cwd w.

(** [m'] keeps every entry of [m] as the kind of node it was. *)
Definition same_kind (a b : node) : Prop :=
  match a, b with
  | Dir, Dir | File _, File _ => True
  | _, _ => False
  end.

Definition keeps (m m' : gmap (list string) node) : Prop :=
  forall k n, m !! k = Some n -> exists n', m' !! k = Some n' /\ same_kind n n'.

(** ** JSON texts

    A recogniser of the grammar of RFC 8259 on UTF-8 text, by recursive
    descent; [fuel] bounds the nesting of calls. *)
Module json.

Inductive verdict := Accept (rest : string) | Reject | OutOfFuel.

Definition is_ws (c : ascii) : bool :=
  let n := nat_of_ascii c in
  Nat.eqb n 32 || Nat.eqb n 9 || Nat.eqb n 10 || Nat.eqb n 13.

Fixpoint skip_ws (s : string) : string :=
  match s with
  | String c s' => if is_ws c then skip_ws s' else s
  | EmptyString => EmptyString
  end.

Definition is_hex (c : ascii) : bool :=
  let n := nat_of_ascii c in
  ((48 <=? n) && (n <=? 57) || (65 <=? n) && (n <=? 70)
   || (97 <=? n) && (n <=? 102))%nat.

(** The characters of a string after its opening quote, up to and with
    the closing one. *)
Fixpoint string_tail (s : string) : verdict :=
  match s with
  | EmptyString => Reject
  | String c s' =>
      if Ascii.eqb c (ascii_of_nat 34) then Accept s'
      else if Ascii.eqb c "\" then
        match s' with
        | String e s'' =>
            if Ascii.eqb e "u" then
              match s'' with
              | String h1 (String h2 (String h3 (String h4 t))) =>
                  if is_hex h1 && is_hex h2 && is_hex h3 && is_hex h4
                  then string_tail t else Reject
              | _ => Reject
              end
            else if Ascii.eqb e (ascii_of_nat 34) || Ascii.eqb e "\"
                    || Ascii.eqb e "/" || Ascii.eqb e "b" || Ascii.eqb e "f"
                    || Ascii.eqb e "n" || Ascii.eqb e "r" || Ascii.eqb e "t"
            then string_tail s'' else Reject
        | EmptyString => Reject
        end
      else if (nat_of_ascii c <? 32)%nat then Reject
      else string_tail s'
  end.

Definition is_digit (c : ascii) : bool :=
  let n := nat_of_ascii c in (48 <=? n)%nat && (n <=? 57)%nat.

Fixpoint skip_digits (s : string) : string :=
  match s with
  | String c s' => if is_digit c then skip_digits s' else s
  | EmptyString => EmptyString
  end.

(** One digit or more. *)
Definition digits (s : string) : verdict :=
  match s with
  | String c s' => if is_digit c then Accept (skip_digits s') else Reject
  | EmptyString => Reject
  end.

Definition and_then (v : verdict) (k : string -> verdict) : verdict :=
  match v with
  | Accept rest => k rest
  | other => other
  end.

Definition number (s : string) : verdict :=
  let unsigned :=
    match s with String "-" s' => s' | _ => s end in
  let int :=
    match unsigned with
    | String "0" s' => Accept s'
    | _ => digits unsigned
    end in
  and_then int (fun s1 =>
    let frac :=
      match s1 with
      | String "." s' => digits s'
      | _ => Accept s1
      end in
    and_then frac (fun s2 =>
      match s2 with
      | String e s' =>
          if Ascii.eqb e "e" || Ascii.eqb e "E" then
            match s' with
            | String sign s'' =>
                if Ascii.eqb sign "+" || Ascii.eqb sign "-"
                then digits s'' else digits s'
            | EmptyString => Reject
            end
          else Accept s2
      | EmptyString => Accept s2
      end)).

Definition literal (word s : string) : verdict :=
  if str_startswith s word
  then Accept (String.substring (String.length word)
                 (String.length s - String.length word) s)
  else Reject.

(** [value] reads one value; [members] and [elements] read what follows
    the first member of an object and the first element of an array. *)
Fixpoint value (fuel : nat) (s : string) : verdict :=
  match fuel with
  | O => OutOfFuel
  | S fuel' =>
      match s with
      | String "{" s' =>
          match skip_ws s' with
          | String "}" t => Accept t
          | t => and_then (member fuel' t) (members fuel')
          end
      | String "[" s' =>
          match skip_ws s' with
          | String "]" t => Accept t
          | t => and_then (value fuel' t) (elements fuel')
          end
      | String "t" _ => literal "true" s
      | String "f" _ => literal "false" s
      | String "n" _ => literal "null" s
      | String c s' =>
          if Ascii.eqb c (ascii_of_nat 34) then string_tail s' else number s
      | EmptyString => Reject
      end
  end
with member (fuel : nat) (s : string) : verdict :=
  match fuel with
  | O => OutOfFuel
  | S fuel' =>
      match s with
      | String c s' =>
          if Ascii.eqb c (ascii_of_nat 34) then
            and_then (string_tail s') (fun t =>
              match skip_ws t with
              | String ":" u => value fuel' (skip_ws u)
              | _ => Reject
              end)
          else Reject
      | EmptyString => Reject
      end
  end
with members (fuel : nat) (s : string) : verdict :=
  match fuel with
  | O => OutOfFuel
  | S fuel' =>
      match skip_ws s with
      | String "}" t => Accept t
      | String "," t => and_then (member fuel' (skip_ws t)) (members fuel')
      | _ => Reject
      end
  end
with elements (fuel : nat) (s : string) : verdict :=
  match fuel with
  | O => OutOfFuel
  | S fuel' =>
      match skip_ws s with
      | String "]" t => Accept t
      | String "," t => and_then (value fuel' (skip_ws t)) (elements fuel')
      | _ => Reject
      end
  end.

(** A JSON text is one value between white space. *)
Definition check (s : string) : verdict :=
  and_then (value (2 * String.length s + 2) (skip_ws s))
    (fun rest =>
       match skip_ws rest with
       | EmptyString => Accept EmptyString
       | _ => Reject
       end).

Definition well_formed (s : string) : Prop := check s = Accept EmptyString.
Definition ill_formed (s : string) : Prop := check s = Reject.

End json.




(** [home_world] with [/home/u] closed to the process. *)
Definition protected_world : world :=
  mkWorld (fs home_world) {[ ["home"; "u"] ]} (cwd home_world) [] [].

(** [home_world] with a skill directory that holds an edited README and
    a file of the user's own. *)
Definition used_world : world :=
  mkWorld (<[ ["home"; "u"; "my-skill"; "notes.txt"] := File "keep" ]>
           (<[ ["home"; "u"; "my-skill"; "README.md"] := File "edited" ]>
            (<[ ["home"; "u"; "my-skill"] := Dir ]> (fs home_world))))
          ∅ (cwd home_world) [] [].

(** A character that stands for itself in a JSON string: no control
    character, no double quote, no backslash. *)
Definition json_plain_char (c : ascii) : bool :=
  negb (nat_of_ascii c <? 32)%nat && negb (Ascii.eqb c (ascii_of_nat 34))
  && negb (Ascii.eqb c (ascii_of_nat 92)).

(** [home_world] with a regular file where the skill directory would
    be. *)
Definition taken_world : world :=
  mkWorld (<[ ["home"; "u"; "my-skill"] := File "mine" ]> (fs home_world))
          ∅ (cwd home_world) [] [].

(** A process whose working directory has been removed. *)
Definition lost_world : world :=
  mkWorld (fs home_world) ∅ ["home"; "gone"] [] [].

(** [home_world] with a regular file where the sub-directory [src] of
    the skill directory would be. *)
Definition blocked_world : world :=
  mkWorld (<[ ["home"; "u"; "my-skill"; "src"] := File "" ]>
           (<[ ["home"; "u"; "my-skill"] := Dir ]> (fs home_world)))
          ∅ (cwd home_world) [] [].

(** Why [os.mkdir] refuses the path [p] with the error [e], other than
    for a missing parent: [p] is a regular file, or a free name in a
    directory closed to the process, or it lies below a regular file. *)
Definition refused_with (w : world) (p : Path) (e : errno) : Prop :=
  match resolve w p with
  | Found _ (File _) => e = EEXIST
  | Found _ Dir => False
  | Vacant c => removelast c ∈ protected w /\ e = EACCES
  | Fails ENOTDIR => e = ENOTDIR
  | Fails _ => False
  end.

(** A command line that holds [--path] options and nothing else: each
    value stands after an equals sign ([true]) or as the next
    argument. *)
Definition path_option (joined : bool) (v : string) : list string :=
  if joined then ["--path=" +:+ v] else ["--path"; v].

Definition path_options (vs : list (bool * string)) : list string :=
  flat_map (fun x => path_option (fst x) (snd x)) vs.

(** * Properties *)

(** ** The models on small inputs *)

Example of_str_normalises :
  pathlib.of_str "//a/./b//c/" = pathlib.mkPath "//" ["a"; "b"; "c"] /\
  pathlib.of_str "///a" = pathlib.mkPath "/" ["a"] /\
  pathlib.of_str "" = pathlib.mkPath "" [] /\
  pathlib.to_str (pathlib.of_str "") = ".".
Proof. repeat split; reflexivity. Qed.

Example joinpath_examples :
  pathlib.to_str (pathlib.of_str "/home/u" // "my-skill" // "src" // "main.py")
    = "/home/u/my-skill/src/main.py" /\
  pathlib.of_str "/home/u" // "/etc/x" = pathlib.of_str "/etc/x" /\
  pathlib.of_str "/home/u" // "" = pathlib.of_str "/home/u".
Proof. repeat split; reflexivity. Qed.

Example parse_args_examples :
  argparse.parse_args ["my-skill"] = argparse.Namespace "my-skill" None /\
  argparse.parse_args ["a"; "--path"; "p"] = argparse.Namespace "a" (Some "p") /\
  argparse.parse_args ["--pa=q"; "a"] = argparse.Namespace "a" (Some "q") /\
  argparse.parse_args ["--path"; "p"] = argparse.SystemExit 2 /\
  argparse.parse_args ["a"; "b"] = argparse.SystemExit 2 /\
  argparse.parse_args ["a"; "--path"] = argparse.SystemExit 2 /\
  argparse.parse_args ["-h"] = argparse.SystemExit 0 /\
  argparse.parse_args ["-5"] = argparse.Namespace "-5" None /\
  argparse.parse_args ["--"; "-x"] = argparse.Namespace "-x" None.
Proof. repeat split; reflexivity. Qed.

Example ascii_text_examples :
  ascii_title "my_skill-x2y" = "My_Skill-X2Y" /\
  ascii_repr "/home/u/x" = "'/home/u/x'" /\
  ascii_repr "it's" = quoted "it's".
Proof. repeat split; reflexivity. Qed.

Example json_examples :
  json.well_formed "[1, 2.5e+3, true, null, {}, []]" /\
  json.ill_formed "[1,]" /\ json.ill_formed "{,}" /\ json.ill_formed "01" /\
  json.well_formed (skill_json_content "my-skill").
Proof. repeat split; by vm_compute. Qed.

(** In a home directory where [my-skill/src] is a file, the run stops
    at the second call. *)
Example blocked_run :
  let w := mkWorld (<[ ["home"; "u"; "my-skill"; "src"] := File "" ]>
                    (<[ ["home"; "u"; "my-skill"] := Dir ]> (fs home_world)))
                   ∅ ["home"; "u"] [] [] in
  fst (@main ascii_text ["my-skill"] w) = 1%Z /\
  out (snd (@main ascii_text ["my-skill"] w)) =
    [ (Stdout, "✓ Created skill directory: /home/u/my-skill");
      (Stderr, "❌ Error: [Errno 17] File exists: '/home/u/my-skill/src'") ].
Proof. split; by vm_compute. Qed.

(** ** Text *)

Lemma str_app_assoc (a b c : string) : (a +:+ b) +:+ c = a +:+ (b +:+ c).
Proof.
  induction a as [|x a IH]; [done|].
  change (String x ((a +:+ b) +:+ c) = String x (a +:+ (b +:+ c))).
  by rewrite IH.
Qed.


Lemma lines_on_app s (a b : list (stream * string)) :
  lines_on s (a ++ b) = lines_on s a ++ lines_on s b.
Proof. apply omap_app. Qed.

Lemma lines_on_stderr_stdout (ls : list string) :
  lines_on Stderr (List.map on_stdout ls) = [].
Proof. by induction ls. Qed.

(** ** The path walk *)

Lemma walk_found_lookup m s ps D n :
  walk m s ps = Found D n -> m !! D = Some n.
Proof.
  revert s. induction ps as [|a ps IH]; intros s; simpl.
  - destruct (m !! s) eqn:E; [|done]. by intros [= <- <-].
  - destruct (m !! s) as [[|]|] eqn:E; try done.
    unfold string_eqb. case_bool_decide; [by apply IH|].
    destruct (m !! (s ++ [a])) eqn:E'; [by apply IH|].
    by destruct ps.
Qed.

Lemma walk_vacant_lookup m s ps c :
  walk m s ps = Vacant c -> m !! c = None /\ m !! removelast c = Some Dir.
Proof.
  revert s. induction ps as [|a ps IH]; intros s; simpl.
  - by destruct (m !! s).
  - destruct (m !! s) as [[|]|] eqn:E; try done.
    unfold string_eqb. case_bool_decide; [by apply IH|].
    destruct (m !! (s ++ [a])) eqn:E'; [by apply IH|].
    destruct ps; [|done]. intros [= <-]. by rewrite removelast_last.
Qed.

(** A walk that found a node finds it again, as the same kind of node,
    in a file system that keeps every entry. *)
Lemma walk_keeps m m' s ps D n :
  keeps m m' -> walk m s ps = Found D n ->
  exists n', walk m' s ps = Found D n' /\ same_kind n n'.
Proof.
  intros Hk. revert s. induction ps as [|a ps IH]; intros s; simpl.
  - destruct (m !! s) as [n0|] eqn:E; [|done]. intros [= <- <-].
    destruct (Hk _ _ E) as (n' & -> & Hs). eauto.
  - destruct (m !! s) as [[|]|] eqn:E; try done.
    destruct (Hk _ _ E) as ([|] & -> & Hs); [done|].
    unfold string_eqb. case_bool_decide; [by apply IH|].
    destruct (m !! (s ++ [a])) eqn:E'; [|by destruct ps].
    destruct (Hk _ _ E') as (n' & -> & _). by apply IH.
Qed.

Lemma walk_keeps_dir m m' s ps D :
  keeps m m' -> walk m s ps = Found D Dir -> walk m' s ps = Found D Dir.
Proof.
  intros Hk Hw. destruct (walk_keeps _ _ _ _ _ _ Hk Hw) as ([|] & ? & ?); done.
Qed.

(** A free name, once given a node, is found. *)
Lemma walk_insert_vacant m s ps c n :
  walk m s ps = Vacant c -> walk (<[c := n]> m) s ps = Found c n.
Proof.
  intros Hw. pose proof (walk_vacant_lookup _ _ _ _ Hw) as [Hc _].
  revert s Hw. induction ps as [|a ps IH]; intros s; simpl.
  - by destruct (m !! s).
  - destruct (m !! s) as [[|]|] eqn:E; try done.
    assert (s <> c) by congruence.
    rewrite lookup_insert_ne, E by done.
    unfold string_eqb. case_bool_decide; [by apply IH|].
    destruct (m !! (s ++ [a])) eqn:E'.
    + assert (s ++ [a] <> c) by congruence.
      rewrite lookup_insert_ne, E' by done. by apply IH.
    + destruct ps; [|done]. intros [= <-].
      rewrite lookup_insert_eq. simpl. by rewrite lookup_insert_eq.
Qed.

(** Without [..] a walk ends at the start followed by the components. *)
Lemma walk_lexical m s ps :
  Forall (fun c => c <> "..") ps ->
  match walk m s ps with
  | Found c _ | Vacant c => c = s ++ ps
  | Fails _ => True
  end.
Proof.
  intros Hps. revert s. induction Hps as [|a ps Ha _ IH]; intros s; simpl.
  - destruct (m !! s); [|done]. by rewrite app_nil_r.
  - destruct (m !! s) as [[|]|]; try done.
    unfold string_eqb. rewrite bool_decide_eq_false_2 by done.
    destruct (m !! (s ++ [a])).
    + specialize (IH (s ++ [a])). by rewrite <- app_assoc in IH.
    + by destruct ps.
Qed.

Lemma keeps_refl m : keeps m m.
Proof. intros k n ?. exists n. by destruct n. Qed.

Lemma keeps_trans m1 m2 m3 : keeps m1 m2 -> keeps m2 m3 -> keeps m1 m3.
Proof.
  intros H1 H2 k n Hk. destruct (H1 _ _ Hk) as (n' & Hk' & Hs).
  destruct (H2 _ _ Hk') as (n'' & Hk'' & Hs'). exists n''. split; [done|].
  by destruct n, n', n''.
Qed.

Lemma keeps_insert m k n :
  match m !! k with Some n0 => same_kind n0 n | None => True end ->
  keeps m (<[k := n]> m).
Proof.
  intros Hc j nj Hj. destruct (decide (k = j)) as [->|].
  - rewrite Hj in Hc. exists n. by rewrite lookup_insert_eq.
  - exists nj. rewrite lookup_insert_ne by done. split; [done|by destruct nj].
Qed.

Lemma subseteq_keeps (m m' : gmap (list string) node) : m ⊆ m' -> keeps m m'.
Proof.
  intros Hs k n Hk. exists n. split; [|by destruct n].
  by eapply lookup_weaken.
Qed.

Lemma walk_app m s ps qs :
  walk m s (ps ++ qs) =
    match walk m s ps with
    | Found d _ => walk m d qs
    | Vacant c => match qs with [] => Vacant c | _ :: _ => Fails ENOENT end
    | Fails e => Fails e
    end.
Proof.
  revert s. induction ps as [|a ps IH]; intros s; simpl.
  - destruct (m !! s) as [n|] eqn:E; destruct qs; simpl; by rewrite ?E.
  - destruct (m !! s) as [[|]|] eqn:E; try done.
    unfold string_eqb. case_bool_decide; [by apply IH|].
    destruct (m !! (s ++ [a])) eqn:E'; [by apply IH|].
    destruct ps; simpl; [by destruct qs|done].
Qed.

(** ** pathlib

    [mkdir_parents] walks the parents of a path by the list of its parts
    in reverse: the parent drops the last part, and a path is its own
    parent when it has no part. *)

Lemma parent_rev_cons r x up :
  pathlib.parent (pathlib.mkPath r (rev (x :: up))) = pathlib.mkPath r (rev up).
Proof. unfold pathlib.parent. simpl. by rewrite removelast_last. Qed.

Lemma parent_rev_nil r :
  pathlib.parent (pathlib.mkPath r (rev [])) = pathlib.mkPath r (rev []).
Proof. done. Qed.

(** ** System calls *)

Lemma set_fs_id w : set_fs (fs w) w = w.
Proof. by destruct w. Qed.

Lemma os_mkdir_inv p w r w' :
  os_mkdir p w = (r, w') ->
  match r with
  | Ok _ => exists c, resolve w p = Vacant c /\ w' = set_fs (<[c := Dir]> (fs w)) w
  | Raise _ => w' = w
  end.
Proof.
  unfold os_mkdir, os_error, raise.
  destruct (resolve w p) as [c n|c|e] eqn:E.
  - by intros [= <- <-].
  - case_bool_decide; intros [= <- <-]; eauto.
  - by intros [= <- <-].
Qed.


Lemma resolve_set_fs_vacant w p c n :
  resolve w p = Vacant c -> resolve (set_fs (<[c := n]> (fs w)) w) p = Found c n.
Proof. apply walk_insert_vacant. Qed.

Lemma os_write_inv p data w r w' :
  os_write p data w = (r, w') ->
  match r with
  | Ok _ =>
      exists c, w' = set_fs (<[c := File data]> (fs w)) w /\
        (resolve w p = Vacant c \/ exists d, resolve w p = Found c (File d))
  | Raise _ => w' = w
  end.
Proof.
  unfold os_write, os_error, raise.
  destruct (resolve w p) as [c [d|]|c|e] eqn:E.
  - intros [= <- <-]. eauto.
  - by intros [= <- <-].
  - case_bool_decide; intros [= <- <-]; eauto.
  - by intros [= <- <-].
Qed.

(** ** pathlib's mkdir *)

Lemma mkdir_except_inv p exist_ok e w r w' :
  mkdir_except p exist_ok e w = (r, w') ->
  w' = w /\
  match r with
  | Ok _ => exist_ok = true /\ exists D, resolve w p = Found D Dir
  | Raise e' => e' = e
  end.
Proof.
  unfold mkdir_except, bind, is_dir, raise, ret.
  destruct exist_ok; simpl.
  - destruct (resolve w p) as [D [|]| |] eqn:E; simpl; intros [= <- <-]; eauto.
  - by intros [= <- <-].
Qed.

(** A successful [mkdir] without [parents] leaves the directory in
    place, whether it made it or found it. *)
Lemma mkdir_single_inv p exist_ok w r w' :
  mkdir_single p exist_ok w = (r, w') ->
  match r with
  | Ok _ =>
      exists D, resolve w' p = Found D Dir /\
        w' = set_fs (<[D := Dir]> (fs w)) w /\
        (fs w !! D = None \/ (exist_ok = true /\ fs w !! D = Some Dir))
  | Raise _ => w' = w
  end.
Proof.
  unfold mkdir_single, catch.
  destruct (os_mkdir p w) as [[[]|e] w1] eqn:E; apply os_mkdir_inv in E.
  - intros [= <- <-]. destruct E as (c & Hv & ->). exists c.
    split; [by apply resolve_set_fs_vacant|]. split; [done|].
    left. by apply walk_vacant_lookup in Hv as [? _].
  - subst w1. destruct (is_ENOENT e); [by intros [= <- <-]|].
    intros [-> Hr]%mkdir_except_inv. destruct r as [[]|]; [|done].
    destruct Hr as (-> & D & HD). exists D. split; [done|].
    pose proof (walk_found_lookup _ _ _ _ _ HD) as Hl.
    rewrite insert_id, set_fs_id by done. auto.
Qed.

(** [mkdir] with [parents] only adds directories; when it returns, the
    path is a directory. *)
Lemma mkdir_parents_inv r rps exist_ok w res w' :
  mkdir_parents r rps exist_ok w = (res, w') ->
  fs w ⊆ fs w' /\ w' = set_fs (fs w') w /\
  match res with
  | Ok _ => exists D, resolve w' (pathlib.mkPath r (rev rps)) = Found D Dir
  | Raise _ => True
  end.
Proof.
  revert exist_ok w res w'.
  induction rps as [|x up IH]; intros exist_ok w res w'; simpl;
    unfold catch;
    match goal with |- context [os_mkdir ?p w] =>
      destruct (os_mkdir p w) as [[[]|e] w1] eqn:E; apply os_mkdir_inv in E
    end.
  - intros [= <- <-]. destruct E as (c & Hv & ->). simpl.
    pose proof (walk_vacant_lookup _ _ _ _ Hv) as [Hn _].
    split; [by apply insert_subseteq|]. split; [done|].
    exists c. by apply resolve_set_fs_vacant.
  - subst w1. destruct (is_ENOENT e).
    + intros [= <- <-]. by rewrite set_fs_id.
    + intros [-> Hr]%mkdir_except_inv. rewrite set_fs_id.
      split; [done|]. split; [done|]. destruct res as [[]|]; [|done].
      by destruct Hr as (_ & D & HD); eauto.
  - intros [= <- <-]. destruct E as (c & Hv & ->). simpl.
    pose proof (walk_vacant_lookup _ _ _ _ Hv) as [Hn _].
    split; [by apply insert_subseteq|]. split; [done|].
    exists c. by apply resolve_set_fs_vacant.
  - subst w1. destruct (is_ENOENT e).
    + unfold bind.
      destruct (mkdir_parents r up true w) as [[[]|e1] w2] eqn:E2;
        apply IH in E2 as (Hsub & Hw2 & _).
      * intros Hs. apply mkdir_single_inv in Hs.
        destruct res as [[]|].
        -- destruct Hs as (D & HD & -> & Hl). simpl.
           split; [|split; [by rewrite Hw2|by eauto]].
           etrans; [done|].
           destruct Hl as [Hl|[_ Hl]]; [by apply insert_subseteq|].
           by rewrite insert_id.
        -- by subst w'.
      * by intros [= <- <-].
    + intros [-> Hr]%mkdir_except_inv. rewrite set_fs_id.
      split; [done|]. split; [done|]. destruct res as [[]|]; [|done].
      by destruct Hr as (_ & D & HD); eauto.
Qed.


(** ** The script's calls *)

Lemma joinpath_plain p c :
  plain c -> p // c = pathlib.mkPath (pathlib.root p) (pathlib.parts p ++ [c]).
Proof. intros [Hc _]. unfold pathlib.joinpath. by rewrite Hc. Qed.

Lemma entry_path_plain p rel :
  Forall plain rel ->
  entry_path p rel = pathlib.mkPath (pathlib.root p) (pathlib.parts p ++ rel).
Proof.
  unfold entry_path. intros Hrel. revert p.
  induction Hrel as [|c rel Hc _ IH]; intros p; simpl.
  - rewrite app_nil_r. by destruct p.
  - rewrite IH, joinpath_plain by done. simpl. by rewrite <- app_assoc.
Qed.

Lemma plain_no_dotdot rel : Forall plain rel -> Forall (fun c => c <> "..") rel.
Proof. intros Hrel. eapply Forall_impl; [done|]. by intros c [_ ?]. Qed.

(** The walk to an entry of the skill directory, once the skill
    directory resolves to [D]. *)
Lemma resolve_entry w skill_dir D rel :
  resolve w skill_dir = Found D Dir -> Forall plain rel ->
  resolve w (entry_path skill_dir rel) = walk (fs w) D rel /\
  match walk (fs w) D rel with
  | Found c _ | Vacant c => c = D ++ rel
  | Fails _ => True
  end.
Proof.
  intros HD Hrel. rewrite entry_path_plain by done. unfold resolve in *.
  simpl. change (start_dir w _) with (start_dir w skill_dir).
  rewrite walk_app, HD. split; [done|].
  by apply walk_lexical, plain_no_dotdot.
Qed.

Lemma resolve_keeps_dir w w' p D :
  cwd w' = cwd w -> keeps (fs w) (fs w') ->
  resolve w p = Found D Dir -> resolve w' p = Found D Dir.
Proof.
  unfold resolve, start_dir. intros -> Hk. by apply walk_keeps_dir.
Qed.

(** What any call does to the logs and to the file system: it is
    logged, nothing is printed, and no entry is removed or changes its
    kind; a call that raises removes nothing at all. *)
Lemma exec_call_inv c w r w' :
  exec_call c w = (r, w') ->
  calls w' = calls w ++ [c] /\ out w' = out w /\ same_process w w' /\
  keeps (fs w) (fs w') /\
  match r with Raise _ => fs w ⊆ fs w' | Ok _ => True end.
Proof.
  destruct c as [p [|] exist_ok|p data]; simpl;
    unfold Path_mkdir, Path_write_text.
  - intros (Hsub & -> & Hr)%mkdir_parents_inv. simpl.
    repeat split; [by apply subseteq_keeps|by destruct r].
  - intros Hs%mkdir_single_inv. destruct r as [[]|].
    + destruct Hs as (D & _ & -> & Hl). simpl in *. repeat split.
      apply keeps_insert. by destruct Hl as [->|[_ ->]].
    + subst w'. simpl. repeat split; [apply keeps_refl|done].
  - intros Hs%os_write_inv. destruct r as [[]|].
    + destruct Hs as (c & -> & Hl). simpl. repeat split.
      apply keeps_insert. unfold resolve in Hl. simpl in Hl.
      destruct Hl as [[-> _]%walk_vacant_lookup|[d ->%walk_found_lookup]]; done.
    + subst w'. simpl. repeat split; [apply keeps_refl|done].
Qed.

(** A successful call for a plan entry puts the entry at its place
    under the skill directory. *)
Lemma entry_call_ok skill_dir D e w w' :
  resolve w skill_dir = Found D Dir -> Forall plain (fst e) ->
  exec_call (entry_call skill_dir e) w = (Ok tt, w') ->
  w' = set_fs (<[D ++ fst e := snd e]> (fs w))
         (log_call (entry_call skill_dir e) w) /\
  resolve w' (entry_path skill_dir (fst e)) = Found (D ++ fst e) (snd e).
Proof.
  intros HD Hrel He.
  pose proof (exec_call_inv _ _ _ _ He) as (_ & _ & [_ Hcwd] & Hk & _).
  pose proof (resolve_keeps_dir _ _ _ _ Hcwd Hk HD) as HD'.
  destruct e as [rel [data|]]; unfold entry_call in *; simpl in *.
  - unfold Path_write_text in He. apply os_write_inv in He.
    destruct He as (c & -> & Hl).
    set (wl := log_call _ w) in *.
    destruct (resolve_entry wl skill_dir D rel HD Hrel) as [Hr Hc].
    rewrite <- Hr in Hc.
    destruct Hl as [Hl|[d Hl]]; rewrite Hl in Hc; subst c.
    + split; [done|]. by apply resolve_set_fs_vacant.
    + split; [done|].
      destruct (resolve_entry _ skill_dir D rel HD' Hrel) as [Hr' Hc'].
      rewrite Hr'. simpl.
      assert (keeps (fs wl) (<[D ++ rel := File data]> (fs wl))) as Hk'.
      { apply keeps_insert. by apply walk_found_lookup in Hl as ->. }
      rewrite Hr in Hl. subst wl. simpl in Hl, Hk'.
      destruct (walk_keeps _ _ _ _ _ _ Hk' Hl) as (n' & Hw & _).
      rewrite Hw. f_equal. apply walk_found_lookup in Hw.
      rewrite lookup_insert_eq in Hw. congruence.
  - unfold Path_mkdir in He. apply mkdir_single_inv in He.
    destruct He as (D' & HD'' & -> & _).
    set (wl := log_call _ w) in *.
    destruct (resolve_entry _ skill_dir D rel HD' Hrel) as [Hr Hc].
    rewrite <- Hr, HD'' in Hc. by subst D'.
Qed.


(** ** Runs of steps *)

Lemma print_eq line w : print line w = (Ok tt, emit Stdout line w).
Proof. done. Qed.

(** A run of steps logs the calls it makes and prints the line of every
    call that returned; when a call raises, the run stops there. *)
Lemma run_steps_inv steps w r w' :
  run_steps steps w = (r, w') ->
  same_process w w' /\ keeps (fs w) (fs w') /\
  match r with
  | Ok _ =>
      calls w' = calls w ++ List.map fst steps /\
      out w' = out w ++ List.map (fun s => on_stdout (snd s)) steps
  | Raise e =>
      exists done failed rest w1,
        steps = done ++ failed :: rest /\
        run_steps done w = (Ok tt, w1) /\
        exec_call (fst failed) w1 = (Raise e, w') /\
        calls w' = calls w ++ List.map fst done ++ [fst failed] /\
        out w' = out w ++ List.map (fun s => on_stdout (snd s)) done
  end.
Proof.
  revert w. induction steps as [|[c line] steps IH]; intros w; simpl.
  - intros [= <- <-]. rewrite !app_nil_r. repeat split. apply keeps_refl.
  - unfold bind at 1.
    destruct (exec_call c w) as [[[]|e] w1] eqn:E;
      pose proof (exec_call_inv _ _ _ _ E) as (Hc & Ho & [Hp Hcwd] & Hk & Hs).
    + unfold bind at 1. rewrite print_eq. intros Hrun.
      apply IH in Hrun as ([Hp' Hcwd'] & Hk' & Hr). simpl in *.
      split; [split; congruence|]. split; [by eapply keeps_trans|].
      destruct r as [[]|e].
      * destruct Hr as [-> ->]. rewrite Hc, Ho, <- !app_assoc. done.
      * destruct Hr as (done & failed & rest & w2 & -> & Hd & Hf & -> & ->).
        exists ((c, line) :: done), failed, rest, w2. simpl.
        unfold bind at 1. rewrite E. unfold bind at 1. rewrite print_eq.
        rewrite Hc, Ho, <- !app_assoc. done.
    + intros [= <- <-]. split; [done|]. split; [done|].
      exists [], (c, line), steps, w. simpl. rewrite app_nil_r. done.
Qed.

Lemma after_plan_snoc D plan e m :
  after_plan D (plan ++ [e]) m = <[D ++ fst e := snd e]> (after_plan D plan m).
Proof. unfold after_plan. by rewrite fold_left_app. Qed.


(** A successful run of plan entries leaves the file system of the
    plan, with every entry resolving to its place. *)
Lemma run_entries_ok skill_dir D plan w w' :
  resolve w skill_dir = Found D Dir ->
  Forall (fun e => Forall plain (fst e)) plan ->
  run_steps (List.map (fun e => (entry_call skill_dir e, progress_line e)) plan) w
    = (Ok tt, w') ->
  fs w' = after_plan D plan (fs w) /\
  resolve w' skill_dir = Found D Dir /\
  Forall (fun e => exists n, resolve w' (entry_path skill_dir (fst e))
                              = Found (D ++ fst e) n) plan.
Proof.
  intros HD Hplan. revert w HD.
  induction Hplan as [|e plan He _ IH]; intros w HD; simpl.
  - intros [= <-]. done.
  - unfold bind at 1.
    destruct (exec_call (entry_call skill_dir e) w) as [[[]|x] w1] eqn:E;
      [|done].
    pose proof (exec_call_inv _ _ _ _ E) as (_ & _ & [_ Hcwd1] & Hk1 & _).
    pose proof (resolve_keeps_dir _ _ _ _ Hcwd1 Hk1 HD) as HD1.
    apply entry_call_ok with (D := D) in E as [-> Hr]; [|done..].
    unfold bind at 1. rewrite print_eq. intros Hrun.
    pose proof (run_steps_inv _ _ _ _ Hrun) as ([_ Hcwd] & Hk & _).
    apply IH in Hrun as (-> & HD' & Hall); [|done].
    split; [done|]. split; [done|]. constructor; [|done].
    unfold resolve, start_dir in *. simpl in *. rewrite Hcwd.
    destruct (walk_keeps _ _ _ _ _ _ Hk Hr) as (n' & -> & _). eauto.
Qed.


(** ** The script as a run of its steps *)

Lemma bind_assoc {A B C} (m : M A) (f : A -> M B) (g : B -> M C) w :
  bind (bind m f) g w = bind m (fun x => bind (f x) g) w.
Proof. unfold bind. by destruct (m w) as [[a|e] w1]. Qed.

Lemma bind_ret_l {A B} (a : A) (f : A -> M B) w : bind (ret a) f w = f a w.
Proof. done. Qed.

Lemma bind_ext {A B} (m : M A) (k1 k2 : A -> M B) w :
  (forall a w', k1 a w' = k2 a w') -> bind m k1 w = bind m k2 w.
Proof. intros Hk. unfold bind. destruct (m w) as [[a|e] w1]; [apply Hk|done]. Qed.

Section ScriptFacts.

Context `{PyText}.

(** [create_skill_structure] runs the steps of the plan on the skill
    directory and then prints the report. *)
Lemma create_skill_structure_plan skill_name base_path w :
  create_skill_structure skill_name base_path w =
    (skill_dir <- determine_skill_dir skill_name base_path ;;
     run_steps (script_steps skill_name skill_dir) ;;
     report skill_name skill_dir) w.
Proof.
  unfold create_skill_structure. apply bind_ext. intros skill_dir w1.
  unfold script_steps, scaffold_plan, directories.
  cbn [run_steps List.map for_each].
  repeat (rewrite ?bind_assoc, ?bind_ret_l; apply bind_ext; intros ? ?).
  reflexivity.
Qed.

(** The skill directory is computed without touching the state. *)
Lemma determine_skill_dir_inv skill_name base_path w r w' :
  determine_skill_dir skill_name base_path w = (r, w') ->
  w' = w /\
  match r with
  | Ok skill_dir =>
      skill_dir = (if truthy base_path
                   then pathlib.of_str (default EmptyString base_path)
                   else pathlib.mkPath "/" (cwd w) // skill_name) /\
      (truthy base_path = false -> fs w !! cwd w = Some Dir)
  | Raise e => truthy base_path = false /\ e = OSError ENOENT None
  end.
Proof.
  unfold determine_skill_dir, bind, Path_cwd, ret.
  destruct (truthy base_path); [by intros [= <- <-]|].
  destruct (fs w !! cwd w) as [[|]|]; by intros [= <- <-].
Qed.

Lemma determine_skill_dir_eq skill_name base_path w :
  truthy base_path = true \/ fs w !! cwd w = Some Dir ->
  determine_skill_dir skill_name base_path w =
    (Ok (if truthy base_path
         then pathlib.of_str (default EmptyString base_path)
         else pathlib.mkPath "/" (cwd w) // skill_name), w).
Proof.
  unfold determine_skill_dir, bind, Path_cwd, ret.
  destruct (truthy base_path); [done|]. by intros [? | ->].
Qed.

Lemma report_inv skill_name skill_dir w r w' :
  report skill_name skill_dir w = (r, w') ->
  r = Ok tt /\ fs w' = fs w /\ same_process w w' /\ calls w' = calls w /\
  out w' = out w ++ List.map on_stdout (report_lines skill_name skill_dir).
Proof.
  unfold report, bind, print. simpl. intros [= <- <-]. simpl.
  rewrite <- !app_assoc. done.
Qed.



Lemma Path_mkdir_parents_inv p w r w' :
  Path_mkdir p true true w = (r, w') ->
  fs w ⊆ fs w' /\ same_process w w' /\ out w' = out w /\
  calls w' = calls w ++ [MkdirCall p true true] /\
  match r with
  | Ok _ => exists D, resolve w' p = Found D Dir
  | Raise _ => True
  end.
Proof.
  unfold Path_mkdir. intros (Hs & -> & Hr)%mkdir_parents_inv.
  repeat split; [done|]. destruct r; [|done].
  rewrite rev_involutive in Hr. by destruct p.
Qed.

Lemma plan_plain skill_name :
  Forall (fun e : list string * node => Forall plain (fst e))
    (scaffold_plan skill_name).
Proof. unfold scaffold_plan, plain. repeat constructor; done. Qed.

Lemma plan_NoDup skill_name : NoDup (List.map fst (scaffold_plan skill_name)).
Proof. simpl. by apply (bool_decide_unpack _). Qed.

End ScriptFacts.


Lemma take_one_more {A} (l : list A) x r :
  take (S (length l)) (l ++ x :: r) = l ++ [x].
Proof. induction l as [|a l IH]; simpl; [done|]. by rewrite <- IH. Qed.

Lemma after_plan_lookup_in D plan m e :
  NoDup (List.map fst plan) -> e ∈ plan ->
  after_plan D plan m !! (D ++ fst e) = Some (snd e).
Proof.
  induction plan as [|x plan IH] using rev_ind; intros Hnd Hin.
  - by apply elem_of_nil in Hin.
  - rewrite after_plan_snoc. rewrite map_app in Hnd. simpl in Hnd.
    apply NoDup_app in Hnd as (Hnd & Hx & _).
    apply elem_of_app in Hin as [Hin|Hin%list_elem_of_singleton].
    + rewrite lookup_insert_ne; [by apply IH|].
      intros Heq%app_inv_head. apply (Hx (fst e)); [|rewrite Heq; left].
      apply list_elem_of_fmap. by exists e.
    + subst x. by rewrite lookup_insert_eq.
Qed.


(** ** The argument parser *)

(** A string that does not start with a hyphen is an argument. *)
Lemma parse_optional_positional s :
  str_startswith s "-" = false ->
  argparse.parse_optional s = argparse.Positional /\ string_eqb s "--" = false.
Proof.
  intros Hs. split.
  - destruct s as [|c s]; [done|]. simpl in *.
    rewrite andb_true_r in Hs. by rewrite Hs.
  - unfold string_eqb. apply bool_decide_eq_false_2. by intros ->.
Qed.

(** [--path=v] is the option [--path] with the value [v]. *)
Lemma parse_optional_path_eq v :
  argparse.parse_optional ("--path=" +:+ v)
    = argparse.Optional argparse.PathAction "--path" (Some v) /\
  string_eqb ("--path=" +:+ v) "--" = false.
Proof.
  split; [|unfold string_eqb; by apply bool_decide_eq_false_2].
  change ("--path=" +:+ v)
    with (String "-" (String "-" (String "p" (String "a" (String "t"
            (String "h" (String "=" v))))))).
  unfold argparse.parse_optional.
  assert (forall s, argparse.find_action
            (String "-" (String "-" (String "p" (String "a" (String "t"
               (String "h" (String "=" s))))))) = None) as -> by done.
  done.
Qed.

(** A command line of [--path] options gives no name: the parser
    exits with status 2. *)
Lemma parse_args_path_options vs :
  Forall (fun x => str_startswith (snd x) "-" = false) vs ->
  argparse.parse_args (path_options vs) = argparse.SystemExit 2.
Proof.
  intros Hvs. unfold argparse.parse_args.
  assert (forall path,
            existsb argparse.is_ambiguous (argparse.classify (path_options vs))
              = false /\
            argparse.consume (argparse.classify (path_options vs)) None path
              false = argparse.SystemExit 2) as Hgen.
  { induction Hvs as [|[j v] vs Hv _ IH]; intros path; [done|].
    destruct (parse_optional_path_eq v) as [Hopt Hsep].
    destruct (parse_optional_positional v Hv) as [Hpos Hsep'].
    change (path_options ((j, v) :: vs))
      with (path_option j v ++ path_options vs).
    destruct j; cbn [path_option app argparse.classify].
    - rewrite Hsep, Hopt. cbn. apply IH.
    - change (string_eqb "--path" "--") with false. cbv iota.
      rewrite Hsep'. cbv iota. rewrite Hpos.
      change (argparse.parse_optional "--path")
        with (argparse.Optional argparse.PathAction "--path" None).
      cbn. apply IH. }
  destruct (Hgen None) as [-> ->]. done.
Qed.

(** ** Runs of the script *)

Section Runs.

Context `{PyText}.

(** The outcome of [create_skill_structure], by the outcome of its
    parts. *)
Lemma create_skill_structure_inv skill_name base_path w r w' :
  create_skill_structure skill_name base_path w = (r, w') ->
  match determine_skill_dir skill_name base_path w with
  | (Raise e, _) => r = Raise e /\ w' = w
  | (Ok skill_dir, _) =>
      match r with
      | Ok _ =>
          exists w1,
            run_steps (script_steps skill_name skill_dir) w = (Ok tt, w1) /\
            fs w' = fs w1 /\ same_process w1 w' /\ calls w' = calls w1 /\
            out w' = out w1 ++
                     List.map on_stdout (report_lines skill_name skill_dir)
      | Raise e => run_steps (script_steps skill_name skill_dir) w = (Raise e, w')
      end
  end.
Proof.
  rewrite create_skill_structure_plan. unfold bind at 1.
  destruct (determine_skill_dir skill_name base_path w) as [[sd|e] w0] eqn:E;
    apply determine_skill_dir_inv in E as [-> _]; [|by intros [= <- <-]].
  unfold bind at 1.
  destruct (run_steps (script_steps skill_name sd) w) as [[[]|e] w1] eqn:E;
    [|by intros [= <- <-]].
  intros (-> & ? & ? & ? & ?)%report_inv. eauto 10.
Qed.

(** A successful run: the skill directory resolves to a directory [D],
    the file system is that of the plan under [D], and every entry of
    the plan is in place. *)
Lemma scaffold_success skill_name base_path w w' :
  create_skill_structure skill_name base_path w = (Ok tt, w') ->
  exists skill_dir D w1,
    determine_skill_dir skill_name base_path w = (Ok skill_dir, w) /\
    Path_mkdir skill_dir true true w = (Ok tt, w1) /\
    resolve w1 skill_dir = Found D Dir /\
    fs w' = after_plan D (scaffold_plan skill_name) (fs w1) /\
    same_process w w' /\
    calls w' = calls w ++ List.map fst (script_steps skill_name skill_dir) /\
    out w' = out w ++
             List.map on_stdout
               (List.map snd (script_steps skill_name skill_dir)
                ++ report_lines skill_name skill_dir) /\
    resolve w' skill_dir = Found D Dir /\
    Forall (fun e => resolve w' (entry_path skill_dir (fst e))
                     = Found (D ++ fst e) (snd e))
      (scaffold_plan skill_name) /\
    keeps (fs w) (fs w').
Proof.
  intros Hrun. apply create_skill_structure_inv in Hrun.
  destruct (determine_skill_dir skill_name base_path w) as [[sd|e] w0] eqn:E;
    [|by destruct Hrun].
  pose proof E as [-> _]%determine_skill_dir_inv.
  destruct Hrun as (wr & Hrun & Hfs & [Hp Hcwd] & Hc & Ho).
  pose proof (run_steps_inv _ _ _ _ Hrun) as ([Hp' Hcwd'] & Hkeeps & Hc' & Ho').
  rewrite <- Hfs in Hkeeps.
  unfold script_steps in Hrun. cbn [run_steps exec_call] in Hrun.
  unfold bind at 1 in Hrun.
  destruct (Path_mkdir sd true true w) as [[[]|e] w1] eqn:Emk; [|done].
  pose proof Emk as (_ & [_ Hcwd1] & _ & _ & D & HD)%Path_mkdir_parents_inv.
  unfold bind at 1 in Hrun. rewrite print_eq in Hrun.
  apply run_entries_ok with (D := D) in Hrun as (Hfs' & HD' & Hall);
    [|done|apply plan_plain].
  exists sd, D, w1. split; [done|]. split; [done|]. split; [done|].
  split; [by rewrite Hfs|]. split; [split; congruence|].
  split; [by rewrite Hc|].
  split; [by rewrite Ho, Ho', map_app, app_assoc|].
  assert (forall p, resolve w' p = resolve wr p) as Hres.
  { intros p. unfold resolve, start_dir. by rewrite Hfs, Hcwd. }
  split; [by rewrite Hres|]. split; [|done].
  apply Forall_forall. intros e He. rewrite Hres.
  rewrite Forall_forall in Hall. destruct (Hall e He) as (n & Hn).
  rewrite Hn. f_equal. apply walk_found_lookup in Hn.
  rewrite Hfs' in Hn.
  rewrite after_plan_lookup_in in Hn; [congruence|apply plan_NoDup|done].
Qed.

(** * The claims *)


(** The directory a run works on, by its arguments and the working
    directory. *)
Lemma determine_skill_dir_ok skill_name base_path w skill_dir w0 :
  determine_skill_dir skill_name base_path w = (Ok skill_dir, w0) ->
  skill_dir = (if truthy base_path
               then pathlib.of_str (default EmptyString base_path)
               else pathlib.mkPath "/" (cwd w) // skill_name).
Proof. by intros (_ & ? & _)%determine_skill_dir_inv. Qed.

(** The trace of any run: the steps that completed are a prefix [done]
    of the steps of the plan, each with its line printed; at most one
    more call was made, the one that raised; what the completed steps
    left in the file system is still there. *)
Lemma create_skill_structure_trace skill_name base_path w r w' :
  create_skill_structure skill_name base_path w = (r, w') ->
  let steps :=
    script_steps skill_name
      (if truthy base_path
       then pathlib.of_str (default EmptyString base_path)
       else pathlib.mkPath "/" (cwd w) // skill_name) in
  exists done k w1,
    done `prefix_of` steps /\
    run_steps done w = (Ok tt, w1) /\
    calls w' = calls w ++ take k (List.map fst steps) /\
    length done <= k <= S (length done) /\
    keeps (fs w1) (fs w') /\
    match r with
    | Ok _ =>
        done = steps /\ k = length steps /\
        out w' = out w ++ List.map on_stdout
                   (List.map snd steps
                    ++ report_lines skill_name
                         (if truthy base_path
                          then pathlib.of_str (default EmptyString base_path)
                          else pathlib.mkPath "/" (cwd w) // skill_name))
    | Raise _ =>
        length done < length steps /\ fs w1 ⊆ fs w' /\
        out w' = out w ++ List.map on_stdout (List.map snd done)
    end.
Proof.
  intros Hrun steps. apply create_skill_structure_inv in Hrun.
  destruct (determine_skill_dir skill_name base_path w) as [[sd|e] w0] eqn:E.
  - apply determine_skill_dir_ok in E. fold steps in E.
    subst steps. rewrite <- E. clear E. destruct r as [[]|e].
    + destruct Hrun as (wr & Hrun & Hfs & _ & Hc & Ho).
      pose proof (run_steps_inv _ _ _ _ Hrun) as (_ & _ & Hc' & Ho').
      exists (script_steps skill_name sd), (length (script_steps skill_name sd)), wr.
      split; [done|]. split; [done|].
      split; [by rewrite Hc, Hc', <- (length_map fst), firstn_all|].
      split; [lia|]. split; [rewrite Hfs; apply keeps_refl|].
      split; [done|]. split; [done|].
      by rewrite Ho, Ho', map_app, app_assoc, map_map.
    + pose proof (run_steps_inv _ _ _ _ Hrun)
        as (_ & _ & done & failed & rest & w1 & Hs & Hd & Hf & Hc & Ho).
      pose proof (exec_call_inv _ _ _ _ Hf) as (_ & _ & _ & Hk & Hsub).
      exists done, (S (length done)), w1. rewrite Hs.
      split; [by apply prefix_app_r|]. split; [done|].
      split.
      { rewrite Hc, map_app. simpl.
        by rewrite <- (length_map fst done), take_one_more. }
      split; [lia|]. split; [done|].
      rewrite length_app. simpl. split; [lia|]. split; [done|].
      by rewrite Ho, map_map.
  - destruct Hrun as [-> ->]. exists [], 0, w.
    split; [apply prefix_nil|]. split; [done|].
    split; [by rewrite app_nil_r|]. split; [simpl; lia|].
    split; [apply keeps_refl|]. simpl. split; [lia|].
    split; [done|]. by rewrite app_nil_r.
Qed.

(** C2.  When a file-system call of the run raises, the steps after it
    are not run (at most one call follows the completed ones in the log
    of calls), the only line printed on the error stream is the cross
    mark followed by [Error: ] and the message, the exit status is 1,
    what the completed steps had made is still in the file system, and
    so is every entry that was there before the run. *)
Theorem C2_failure_stops_without_rollback argv skill_name path w e w_exc :
  argparse.parse_args argv = argparse.Namespace skill_name path ->
  create_skill_structure skill_name path w = (Raise e, w_exc) ->
  let steps :=
    script_steps skill_name
      (if truthy path then pathlib.of_str (default EmptyString path)
       else pathlib.mkPath "/" (cwd w) // skill_name) in
  main argv w = (1%Z, emit Stderr ("❌ Error: " +:+ exn_str e) w_exc) /\
  lines_on Stderr (out (snd (main argv w))) =
    lines_on Stderr (out w) ++ ["❌ Error: " +:+ exn_str e] /\
  exists done k w1,
    done `prefix_of` steps /\ length done < length steps /\
    run_steps done w = (Ok tt, w1) /\
    calls (snd (main argv w)) = calls w ++ take k (List.map fst steps) /\
    length done <= k <= S (length done) /\
    fs w1 ⊆ fs (snd (main argv w)) /\
    keeps (fs w) (fs (snd (main argv w))).
Proof.
  intros Hargs Hrun steps.
  assert (main argv w = (1%Z, emit Stderr ("❌ Error: " +:+ exn_str e) w_exc))
    as Hmain by (unfold main; by rewrite Hargs, Hrun).
  rewrite Hmain. split; [done|].
  apply create_skill_structure_trace in Hrun
    as (done & k & w1 & Hpre & Hdone & Hc & Hk & Hkeeps & Hlen & Hsub & Ho).
  split.
  - simpl. rewrite Ho, !lines_on_app, lines_on_stderr_stdout.
    by rewrite app_nil_r.
  - exists done, k, w1. repeat (split; [done|]).
    pose proof (run_steps_inv _ _ _ _ Hdone) as (_ & Hkeeps' & _).
    by eapply keeps_trans.
Qed.

(** The first call of a run that has a skill directory is the [mkdir]
    of that directory. *)
Lemma first_call skill_name base_path w :
  truthy base_path = true \/ fs w !! cwd w = Some Dir ->
  exists rest,
    calls (snd (create_skill_structure skill_name base_path w)) =
      calls w ++
      MkdirCall (if truthy base_path
                 then pathlib.of_str (default EmptyString base_path)
                 else pathlib.mkPath "/" (cwd w) // skill_name) true true
      :: rest.
Proof.
  intros Hd. set (sd := if truthy base_path then _ else _).
  rewrite create_skill_structure_plan. unfold bind at 1.
  rewrite determine_skill_dir_eq by done. fold sd.
  unfold script_steps. cbn [run_steps exec_call].
  rewrite !bind_assoc. unfold bind at 1.
  destruct (Path_mkdir sd true true w) as [[[]|e] w1] eqn:E;
    pose proof E as (_ & _ & _ & Hc & _)%Path_mkdir_parents_inv.
  - match goal with |- context [snd ?x] => destruct x as [r w'] eqn:Er end.
    simpl. rewrite bind_assoc in Er.
    assert (exists rest, calls w' = calls w1 ++ rest) as [rest ->].
    { unfold bind at 1 in Er. rewrite print_eq in Er. unfold bind at 1 in Er.
      match type of Er with
      | context [run_steps ?l ?v] =>
          destruct (run_steps l v) as [[[]|x] w2] eqn:E2;
            pose proof (run_steps_inv _ _ _ _ E2) as (_ & _ & Hr)
      end.
      - apply report_inv in Er as (_ & _ & _ & -> & _).
        destruct Hr as [-> _]. eauto.
      - injection Er as <- <-.
        destruct Hr as (d & f & rs & w3 & _ & _ & _ & -> & _). eauto. }
    rewrite Hc, <- app_assoc. eauto.
  - simpl. rewrite Hc. eauto.
Qed.

(** C3 (as amended).  A command line without the name, empty or
    holding [--path] options only, ends the process with status 2 and
    the state untouched, whatever the state.  A name is never
    validated: any string at all after [--], and any string that does
    not start with a hyphen as it stands, the empty string too, is
    taken as the name, and the first thing the run does with it is the
    [mkdir] of [<cwd>/<name>]. *)
Theorem C3_name_required_not_validated skill_name w :
  (forall vs,
     Forall (fun x => str_startswith (snd x) "-" = false) vs ->
     main (path_options vs) w = (2%Z, w)) /\
  argparse.parse_args ["--"; skill_name] = argparse.Namespace skill_name None /\
  (str_startswith skill_name "-" = false ->
   argparse.parse_args [skill_name] = argparse.Namespace skill_name None) /\
  (forall argv,
     argparse.parse_args argv = argparse.Namespace skill_name None ->
     fs w !! cwd w = Some Dir ->
     exists rest,
       calls (snd (main argv w)) =
         calls w ++
         MkdirCall (pathlib.mkPath "/" (cwd w) // skill_name) true true :: rest).
Proof.
  split.
  { intros vs Hvs. unfold main. by rewrite parse_args_path_options. }
  split; [done|]. split.
  { intros [Hpos Hsep]%parse_optional_positional.
    unfold argparse.parse_args, argparse.classify. by rewrite Hsep, Hpos. }
  intros argv Hparse Hcwd. unfold main. rewrite Hparse.
  destruct (first_call skill_name None w) as [rest Hrest]; [by right|].
  simpl in Hrest.
  destruct (create_skill_structure skill_name None w) as [[[]|e] w'];
    simpl in *; eauto.
Qed.

(** C4 (as amended).  The directory a run makes first, its target, is
    the path built from [--path] when that argument is given and not
    empty, whatever the name; it is [<cwd>/<name>] when [--path] is
    absent or empty. *)
Theorem C4_target_directory skill_name path w :
  fs w !! cwd w = Some Dir ->
  exists rest,
    calls (snd (create_skill_structure skill_name path w)) =
      calls w ++
      MkdirCall
        match path with
        | Some p =>
            if string_eqb p EmptyString
            then pathlib.mkPath "/" (cwd w) // skill_name
            else pathlib.of_str p
        | None => pathlib.mkPath "/" (cwd w) // skill_name
        end true true
      :: rest.
Proof.
  intros Hcwd.
  destruct (first_call skill_name path w) as [rest Hrest]; [by right|].
  exists rest. rewrite Hrest. do 3 f_equal.
  destruct path as [p|]; [|done]. simpl. by destruct (string_eqb p EmptyString).
Qed.




(** C8.  The calls of a run, each with its path and its content or
    directory mark, are those of the scaffold plan of the name on the
    skill directory, in the order of the plan: two runs with the same
    name, the same [--path] and the same working directory make the
    same calls with the same contents, whatever the two file systems
    hold, up to the call at which one of them fails. *)
Theorem C8_plan_is_deterministic skill_name path w1 w2 r1 r2 w1' w2' :
  cwd w1 = cwd w2 ->
  create_skill_structure skill_name path w1 = (r1, w1') ->
  create_skill_structure skill_name path w2 = (r2, w2') ->
  exists skill_dir k1 k2,
    calls w1' =
      calls w1 ++
      take k1 (MkdirCall skill_dir true true
               :: List.map (entry_call skill_dir) (scaffold_plan skill_name)) /\
    calls w2' =
      calls w2 ++
      take k2 (MkdirCall skill_dir true true
               :: List.map (entry_call skill_dir) (scaffold_plan skill_name)) /\
    match r1 with Ok _ => k1 = 14 | Raise _ => k1 <= 14 end /\
    match r2 with Ok _ => k2 = 14 | Raise _ => k2 <= 14 end.
Proof.
  intros Hcwd E1 E2.
  apply create_skill_structure_trace in E1
    as (d1 & k1 & v1 & _ & _ & Hc1 & Hk1 & _ & Hr1).
  apply create_skill_structure_trace in E2
    as (d2 & k2 & v2 & _ & _ & Hc2 & Hk2 & _ & Hr2).
  rewrite <- Hcwd in Hc2.
  exists (if truthy path then pathlib.of_str (default EmptyString path)
          else pathlib.mkPath "/" (cwd w1) // skill_name), k1, k2.
  split; [exact Hc1|]. split; [exact Hc2|].
  split.
  - destruct r1 as [[]|e]; [by destruct Hr1 as (_ & Hk & _)|].
    destruct Hr1 as (Hlen & _). simpl in Hlen. lia.
  - destruct r2 as [[]|e]; [by destruct Hr2 as (_ & Hk & _)|].
    destruct Hr2 as (Hlen & _). simpl in Hlen. lia.
Qed.



End Runs.

(** * Concrete runs

    The runs below use the sample text operations. *)

#[local] Existing Instance ascii_text.


(** A run is given by its result and the state it leaves. *)
Lemma run_ok (x : result unit * world) :
  match fst x with Ok _ => true | Raise _ => false end = true ->
  x = (Ok tt, snd x).
Proof. by destruct x as [[[]|e] w]. Qed.

Lemma run_raise (x : result unit * world) e :
  fst x = Raise e -> x = (Raise e, snd x).
Proof. destruct x as [r w]. simpl. by intros ->. Qed.




(** C2 at a run that is denied the creation of its directory. *)
Lemma C2_witness :
  fst (@main ascii_text ["x"] protected_world) = 1%Z /\
  lines_on Stderr (out (snd (@main ascii_text ["x"] protected_world))) =
    ["❌ Error: [Errno 13] Permission denied: '/home/u/x'"] /\
  calls (snd (@main ascii_text ["x"] protected_world)) =
    [MkdirCall (pathlib.of_str "/home/u/x") true true].
Proof.
  assert (@create_skill_structure ascii_text "x" None protected_world
          = (Raise (OSError EACCES (Some "/home/u/x")),
             snd (@create_skill_structure ascii_text "x" None protected_world)))
    as Hrun by (apply run_raise; by vm_compute).
  destruct (@C2_failure_stops_without_rollback ascii_text ["x"] "x" None
              protected_world _ _ eq_refl Hrun) as (Hmain & Hlines & _).
  split; [by rewrite Hmain|]. split; [exact Hlines|]. by vm_compute.
Defined.

(** C3, the claim as stated fails: the empty name is accepted, the run
    exits with status 0 and has filled the working directory; and the
    name [-x], which is not empty, is refused by the argument parser. *)
Lemma C3_counterexample :
  (fst (@main ascii_text [""] home_world) = 0%Z /\
   fs (snd (@main ascii_text [""] home_world)) !! ["home"; "u"; "README.md"]
     = Some (File (readme_content ""))) /\
  @main ascii_text ["-x"] home_world = (2%Z, home_world).
Proof. repeat split; by vm_compute. Qed.

(** C3 at the empty command line, at a command line with two [--path]
    options, and at the name [-x] after [--]. *)
Lemma C3_witness :
  @main ascii_text [] home_world = (2%Z, home_world) /\
  @main ascii_text ["--path"; "/srv"; "--path=/tmp"] home_world
    = (2%Z, home_world) /\
  argparse.parse_args ["--"; "-x"] = argparse.Namespace "-x" None /\
  exists rest,
    calls (snd (@main ascii_text ["--"; "-x"] home_world)) =
      calls home_world ++
      MkdirCall (pathlib.mkPath "/" (cwd home_world) // "-x") true true :: rest.
Proof.
  destruct (@C3_name_required_not_validated ascii_text "-x" home_world)
    as (Habsent & Hsep & _ & Hrun).
  split; [exact (Habsent [] (Forall_nil_2 _))|].
  split.
  { apply (Habsent [(false, "/srv"); (true, "/tmp")]).
    by repeat constructor. }
  split; [exact Hsep|].
  exact (Hrun ["--"; "-x"] Hsep eq_refl).
Defined.

(** C4, the claim as stated fails: with an empty [--path] the target is
    [<cwd>/<name>], not the path built from the argument. *)
Lemma C4_counterexample :
  head (calls (snd (@main ascii_text ["x"; "--path"; ""] home_world)))
    = Some (MkdirCall (pathlib.of_str "/home/u/x") true true) /\
  pathlib.of_str "/home/u/x" <> pathlib.of_str "".
Proof. split; [by vm_compute|by vm_compute]. Qed.

(** C4 at an explicit path. *)
Lemma C4_witness :
  exists rest,
    calls (snd (@create_skill_structure ascii_text "x" (Some "/srv/y")
                  home_world)) =
      calls home_world ++ MkdirCall (pathlib.of_str "/srv/y") true true :: rest.
Proof.
  exact (@C4_target_directory ascii_text "x" (Some "/srv/y") home_world
           eq_refl).
Defined.



(** C8 at two file systems: an empty home directory, and one where the
    skill directory holds an edited README and a file of the user's. *)
Lemma C8_witness :
  calls (snd (@create_skill_structure ascii_text "my-skill" None home_world)) =
  calls (snd (@create_skill_structure ascii_text "my-skill" None used_world)).
Proof.
  assert (@create_skill_structure ascii_text "my-skill" None home_world
          = (Ok tt, snd (@create_skill_structure ascii_text "my-skill" None
                           home_world))) as H1 by (apply run_ok; by vm_compute).
  assert (@create_skill_structure ascii_text "my-skill" None used_world
          = (Ok tt, snd (@create_skill_structure ascii_text "my-skill" None
                           used_world))) as H2 by (apply run_ok; by vm_compute).
  destruct (@C8_plan_is_deterministic ascii_text "my-skill" None home_world
              used_world _ _ _ _ eq_refl H1 H2)
    as (sd & k1 & k2 & -> & -> & -> & ->).
  reflexivity.
Defined.




(** * Further properties of the script

    What follows goes beyond the claims: what a run never does to the
    file system, what a successful run leaves, how a run fails, and
    what the command line and the template of [skill.json] guarantee. *)

Section MoreRuns.

Context `{PyText}.

(** X1.  A run never removes an entry and never turns a file into a
    directory or a directory into a file: whatever the arguments and
    the outcome, every entry that was in the file system is still
    there, as the kind of node it was. *)
Theorem X1_run_never_removes argv w : keeps (fs w) (fs (snd (main argv w))).
Proof.
  unfold main. destruct (argparse.parse_args argv) as [skill_name path|code];
    [|apply keeps_refl].
  destruct (create_skill_structure skill_name path w) as [r w'] eqn:E.
  apply create_skill_structure_trace in E
    as (done & k & w1 & _ & Hdone & _ & _ & Hk & _).
  apply run_steps_inv in Hdone as (_ & Hk' & _).
  assert (keeps (fs w) (fs w')) by by eapply keeps_trans.
  by destruct r.
Qed.


End MoreRuns.

(** ** The command line *)

(** The parser exits with status 0, for help, or 2, for an error. *)
Lemma consume_exit toks name path extras code :
  argparse.consume toks name path extras = argparse.SystemExit code ->
  code = 0%Z \/ code = 2%Z.
Proof.
  remember (length toks) as n eqn:Hn.
  revert toks name path extras Hn.
  induction n as [n IH] using lt_wf_ind. intros toks name path extras Hn.
  assert (forall toks' name' path' extras',
            length toks' < length toks ->
            argparse.consume toks' name' path' extras' = argparse.SystemExit code ->
            code = 0%Z \/ code = 2%Z) as Hrec.
  { intros toks' ? ? ? Hlt. eapply IH; [|reflexivity]. lia. }
  clear IH Hn.
  destruct toks as [|[s k] rest]; simpl.
  - destruct name; [destruct extras|]; intros [= <-]; auto.
  - destruct k as [| |[|] o [e|]| |].
    + destruct name.
      * apply Hrec. simpl. lia.
      * destruct rest as [|[s' [| |a o' e'| |]] rest']; apply Hrec; simpl; lia.
    + destruct name; [apply Hrec; simpl; lia|].
      destruct rest as [|[s' k'] rest']; apply Hrec; simpl; lia.
    + destruct (_ && _); intros [= <-]; auto.
    + intros [= <-]. auto.
    + apply Hrec. simpl. lia.
    + destruct rest as [|[v [| |a o' e'| |]] rest']; try (intros [= <-]; by auto).
      apply Hrec. simpl. lia.
    + apply Hrec. simpl. lia.
    + intros [= <-]. auto.
Qed.

Lemma parse_args_exit argv code :
  argparse.parse_args argv = argparse.SystemExit code ->
  code = 0%Z \/ code = 2%Z.
Proof.
  unfold argparse.parse_args. destruct (existsb _ _).
  - intros [= <-]. auto.
  - apply consume_exit.
Qed.

Section CommandLine.

Context `{PyText}.

(** X5.  The exit status of the process is 0, 1 or 2, and a process
    that exits with status 2, the argument parser's, has left the files,
    the log of calls and the output as they were. *)
Theorem X5_exit_status argv w :
  fst (main argv w) = 0%Z \/ fst (main argv w) = 1%Z \/
  (fst (main argv w) = 2%Z /\ snd (main argv w) = w).
Proof.
  unfold main. destruct (argparse.parse_args argv) as [n p|code] eqn:E.
  - destruct (create_skill_structure n p w) as [[[]|e] w']; simpl; auto.
  - apply parse_args_exit in E as [->| ->]; simpl; auto.
Qed.

(** X6.  The option [--path] may stand before or after the name, and
    its value may be a separate argument or follow an equals sign: for
    a name and a value that do not start with a hyphen the four forms
    are read alike. *)
Theorem X6_path_option_forms skill_name p :
  str_startswith skill_name "-" = false ->
  str_startswith p "-" = false ->
  argparse.parse_args [skill_name; "--path"; p]
    = argparse.Namespace skill_name (Some p) /\
  argparse.parse_args ["--path"; p; skill_name]
    = argparse.Namespace skill_name (Some p) /\
  argparse.parse_args [skill_name; "--path=" +:+ p]
    = argparse.Namespace skill_name (Some p) /\
  argparse.parse_args ["--path=" +:+ p; skill_name]
    = argparse.Namespace skill_name (Some p).
Proof.
  intros [Hn Hn']%parse_optional_positional [Hp Hp']%parse_optional_positional.
  assert (argparse.parse_optional ("--path=" +:+ p)
          = argparse.Optional argparse.PathAction "--path" (Some p)) as Heq.
  { change ("--path=" +:+ p)
      with (String "-" (String "-" (String "p" (String "a" (String "t"
              (String "h" (String "=" p))))))).
    unfold argparse.parse_optional.
    assert (forall s, argparse.find_action
              (String "-" (String "-" (String "p" (String "a" (String "t"
                 (String "h" (String "=" s))))))) = None) as ->.
    { intros s. unfold argparse.find_action, argparse.option_string_actions.
      done. }
    done. }
  assert (string_eqb ("--path=" +:+ p) "--" = false) as Heq'.
  { unfold string_eqb. by apply bool_decide_eq_false_2. }
  unfold argparse.parse_args, argparse.classify.
  rewrite Hn, Hn', Hp, Hp', Heq, Heq'. cbn.
  unfold argparse.path_value. by rewrite Hp'.
Qed.

(** X7.  A name that starts with a slash is taken as an absolute path:
    without [--path] the run works on that path, not on a directory of
    the working directory, which must exist all the same. *)
Theorem X7_absolute_name skill_name w :
  str_startswith skill_name "/" = true ->
  fs w !! cwd w = Some Dir ->
  exists rest,
    calls (snd (create_skill_structure skill_name None w)) =
      calls w ++ MkdirCall (pathlib.of_str skill_name) true true :: rest.
Proof.
  intros Hname Hcwd.
  destruct (first_call skill_name None w) as [rest Hrest]; [by right|].
  exists rest. rewrite Hrest. do 3 f_equal. simpl.
  destruct skill_name as [|c s]; [done|]. simpl in Hname.
  rewrite andb_true_r in Hname. apply Ascii.eqb_eq in Hname as ->.
  unfold pathlib.joinpath, pathlib.of_str, pathlib.splitroot.
  by destruct (Nat.eqb _ 2).
Qed.

End CommandLine.

(** ** Runs that are sure to fail *)

(** [Path.mkdir] with [parents] and [exist_ok] raises what [os.mkdir]
    raised when that is not for a missing parent and the path is not a
    directory; the state is as it was. *)
Lemma mkdir_parents_refused r rps w e :
  refused_with w (pathlib.mkPath r (rev rps)) e ->
  mkdir_parents r rps true w =
    (Raise (OSError e (Some (pathlib.to_str (pathlib.mkPath r (rev rps))))), w).
Proof.
  unfold refused_with. intros Href.
  assert (catch (os_mkdir (pathlib.mkPath r (rev rps)))
            (fun x =>
               if is_ENOENT x then
                 match rps with
                 | [] => raise x
                 | _ :: up =>
                     mkdir_parents r up true ;;
                     mkdir_single (pathlib.mkPath r (rev rps)) true
                 end
               else mkdir_except (pathlib.mkPath r (rev rps)) true x) w =
          (Raise (OSError e (Some (pathlib.to_str (pathlib.mkPath r (rev rps))))),
           w)) as Hcatch.
  { unfold catch, os_mkdir, os_error, raise, mkdir_except, bind, is_dir.
    destruct (resolve w (pathlib.mkPath r (rev rps))) as [D [c|]|c|[]] eqn:E;
      try done.
    - subst e. simpl. by rewrite E.
    - destruct Href as [Hin ->]. rewrite bool_decide_eq_true_2 by done.
      simpl. by rewrite E.
    - subst e. simpl. by rewrite E. }
  by destruct rps.
Qed.

Lemma refused_with_log_call c w p e :
  refused_with (log_call c w) p e <-> refused_with w p e.
Proof. done. Qed.

Section FailedRuns.

Context `{PyText}.

(** X8.  When the skill directory cannot be made because its path is a
    regular file, or a free name in a directory closed to the process,
    or lies below a regular file, the run stops at its first call: it
    exits with status 1, has changed no file and printed no progress
    line, and its one line of output, on the error stream, names the
    error, 17, 13 or 20, and the path. *)
Theorem X8_unusable_target argv skill_name path w e :
  argparse.parse_args argv = argparse.Namespace skill_name path ->
  truthy path = true \/ fs w !! cwd w = Some Dir ->
  let target :=
    if truthy path then pathlib.of_str (default EmptyString path)
    else pathlib.mkPath "/" (cwd w) // skill_name in
  refused_with w target e ->
  main argv w =
    (1%Z,
     emit Stderr
       ("❌ Error: [Errno " +:+ errno_code e +:+ "] " +:+ strerror e +:+ ": "
        +:+ str_repr (pathlib.to_str target))
       (log_call (MkdirCall target true true) w)).
Proof.
  intros Hargs Hdir target Href. unfold main. rewrite Hargs.
  rewrite create_skill_structure_plan. unfold bind at 1.
  rewrite (determine_skill_dir_eq _ _ _ Hdir). fold target.
  unfold script_steps. cbn [run_steps exec_call]. unfold bind at 1 2.
  unfold Path_mkdir.
  assert (target = pathlib.mkPath (pathlib.root target)
                     (rev (rev (pathlib.parts target)))) as Htarget.
  { rewrite rev_involutive. by destruct target. }
  rewrite (mkdir_parents_refused _ _ _ e).
  - by rewrite <- Htarget.
  - apply refused_with_log_call. by rewrite <- Htarget.
Qed.

(** X9.  Without a usable [--path] the run needs its working directory:
    when that directory is gone the run exits with status 1 at once,
    with no call made and no file changed, and its one line of output
    is the error line for error 2, which names no path. *)
Theorem X9_working_directory_gone argv skill_name path w :
  argparse.parse_args argv = argparse.Namespace skill_name path ->
  truthy path = false ->
  fs w !! cwd w = None ->
  main argv w =
    (1%Z, emit Stderr "❌ Error: [Errno 2] No such file or directory" w).
Proof.
  intros Hargs Hpath Hcwd. unfold main. rewrite Hargs.
  rewrite create_skill_structure_plan. unfold bind at 1.
  unfold determine_skill_dir. rewrite Hpath.
  unfold bind at 1. unfold Path_cwd. by rewrite Hcwd.
Qed.

(** X10.  The run does not replace an entry by one of the other kind:
    when a path of the plan is taken by a directory where the plan has a
    file, or by a file where the plan has a directory, the run exits
    with status 1. *)
Theorem X10_entry_of_other_kind argv skill_name path w e k n :
  argparse.parse_args argv = argparse.Namespace skill_name path ->
  e ∈ scaffold_plan skill_name ->
  resolve w
    (entry_path
       (if truthy path then pathlib.of_str (default EmptyString path)
        else pathlib.mkPath "/" (cwd w) // skill_name) (fst e)) = Found k n ->
  ~ same_kind n (snd e) ->
  fst (main argv w) = 1%Z.
Proof.
  intros Hargs He Hres Hkind. unfold main. rewrite Hargs.
  destruct (create_skill_structure skill_name path w) as [[[]|x] w'] eqn:E;
    [exfalso|done].
  apply scaffold_success in E
    as (sd & D & w1 & Hsd & _ & _ & _ & [_ Hcwd] & _ & _ & _ & Hall & Hkeeps).
  apply determine_skill_dir_ok in Hsd. rewrite <- Hsd in Hres. clear Hsd.
  rewrite Forall_forall in Hall. specialize (Hall e He).
  unfold resolve, start_dir in Hres, Hall. rewrite Hcwd in Hall.
  destruct (walk_keeps _ _ _ _ _ _ Hkeeps Hres) as (n' & Hw & Hsame).
  rewrite Hw in Hall. injection Hall as _ ->. done.
Qed.

End FailedRuns.

(** ** The template of skill.json *)

Lemma str_length_app (a b : string) :
  String.length (a +:+ b) = String.length a + String.length b.
Proof.
  induction a as [|c a IH]; [done|].
  change (S (String.length (a +:+ b)) = S (String.length a + String.length b)).
  by rewrite IH.
Qed.

(** Plain characters are read as they stand. *)
Lemma string_tail_plain (s rest : string) :
  Forall (fun c => json_plain_char c = true) (list_ascii_of_string s) ->
  json.string_tail (s +:+ rest) = json.string_tail rest.
Proof.
  induction s as [|c s IH]; intros Hs.
  - reflexivity.
  - apply Forall_cons in Hs as [Hc Hs]. unfold json_plain_char in Hc.
    apply andb_true_iff in Hc as [[Hctl Hdq]%andb_true_iff Hbs].
    apply negb_true_iff in Hctl, Hdq, Hbs.
    change (String c s +:+ rest) with (String c (s +:+ rest)).
    cbn [json.string_tail]. rewrite Hdq.
    change (Ascii.eqb c "\") with (Ascii.eqb c (ascii_of_nat 92)).
    rewrite Hbs, Hctl. by apply IH.
Qed.

(** A quoted text of plain characters is a JSON string. *)
Lemma string_tail_quoted (s rest : string) :
  Forall (fun c => json_plain_char c = true) (list_ascii_of_string s) ->
  json.string_tail (s +:+ dq +:+ rest) = json.Accept rest.
Proof. intros Hs. by rewrite string_tail_plain. Qed.

(** The steps of the recogniser on an object laid out as the template
    is: the opening brace, a member whose value is a string or the empty
    object, the comma between two members, and the closing brace. *)
Lemma value_open f k rest :
  json.value (S f)
    (json.skip_ws ("{" +:+ nl +:+ "  " +:+ quoted k +:+ rest)) =
  json.and_then (json.member f (quoted k +:+ rest)) (json.members f).
Proof. reflexivity. Qed.

Lemma member_string f k v rest :
  Forall (fun c => json_plain_char c = true) (list_ascii_of_string k) ->
  Forall (fun c => json_plain_char c = true) (list_ascii_of_string v) ->
  json.member (S (S f)) (quoted k +:+ ": " +:+ quoted v +:+ rest) =
    json.Accept rest.
Proof.
  intros Hk Hv. unfold quoted. rewrite !str_app_assoc.
  change (dq +:+ k +:+ dq +:+ ": " +:+ dq +:+ v +:+ dq +:+ rest)
    with (String (ascii_of_nat 34) (k +:+ dq +:+ ": " +:+ dq +:+ v +:+ dq +:+ rest)).
  cbn [json.member]. 
  change (Ascii.eqb (ascii_of_nat 34) (ascii_of_nat 34)) with true. cbv iota.
  rewrite (string_tail_quoted _ _ Hk). cbn [json.and_then].
  change (json.skip_ws (": " +:+ dq +:+ v +:+ dq +:+ rest))
    with (String ":" (String " " (String (ascii_of_nat 34) (v +:+ dq +:+ rest)))).
  cbv iota.
  change (json.skip_ws (String " " (String (ascii_of_nat 34) (v +:+ dq +:+ rest))))
    with (String (ascii_of_nat 34) (v +:+ dq +:+ rest)).
  change (json.value (S f) (String (ascii_of_nat 34) (v +:+ dq +:+ rest)))
    with (json.string_tail (v +:+ dq +:+ rest)).
  by apply string_tail_quoted.
Qed.

Lemma member_empty_object f k rest :
  Forall (fun c => json_plain_char c = true) (list_ascii_of_string k) ->
  json.member (S (S f)) (quoted k +:+ ": {}" +:+ rest) = json.Accept rest.
Proof.
  intros Hk. unfold quoted. rewrite !str_app_assoc.
  change (dq +:+ k +:+ dq +:+ ": {}" +:+ rest)
    with (String (ascii_of_nat 34) (k +:+ dq +:+ ": {}" +:+ rest)).
  cbn [json.member].
  change (Ascii.eqb (ascii_of_nat 34) (ascii_of_nat 34)) with true. cbv iota.
  rewrite (string_tail_quoted _ _ Hk). reflexivity.
Qed.

Lemma members_next f k rest :
  json.members (S f) ("," +:+ nl +:+ "  " +:+ quoted k +:+ rest) =
  json.and_then (json.member f (quoted k +:+ rest)) (json.members f).
Proof. reflexivity. Qed.

Lemma members_close f rest :
  json.members (S f) (nl +:+ "}" +:+ rest) = json.Accept rest.
Proof. reflexivity. Qed.

Lemma plain_chars_app (a b : string) :
  Forall (fun c => json_plain_char c = true) (list_ascii_of_string a) ->
  Forall (fun c => json_plain_char c = true) (list_ascii_of_string b) ->
  Forall (fun c => json_plain_char c = true) (list_ascii_of_string (a +:+ b)).
Proof.
  intros Ha Hb. induction a as [|c a IH]; [done|].
  apply Forall_cons in Ha as [Hc Ha].
  change (list_ascii_of_string (String c a +:+ b))
    with (c :: list_ascii_of_string (a +:+ b)).
  apply Forall_cons. split; [done|by apply IH].
Qed.

(** X11.  For a name whose characters stand for themselves in a JSON
    string, none being a control character, a double quote or a
    backslash, the content of [skill.json] is a JSON text. *)
Theorem X11_skill_json_is_json skill_name :
  Forall (fun c => json_plain_char c = true) (list_ascii_of_string skill_name) ->
  json.well_formed (skill_json_content skill_name).
Proof.
  intros Hname. unfold json.well_formed, json.check, skill_json_content.
  cbn [text_of_lines]. rewrite !str_app_assoc.
  match goal with
  | |- context [2 * String.length ?s + 2] =>
      assert (exists f, 2 * String.length s + 2 = 10 + f) as [f ->]
  end.
  { match goal with |- exists f, 2 * ?n + 2 = _ => exists (2 * n - 8) end.
    rewrite 3!str_length_app. cbn [String.length nl]. lia. }
  assert (Forall (fun c => json_plain_char c = true)
            (list_ascii_of_string ("Description of " +:+ skill_name))) as Hdesc.
  { apply plain_chars_app; [|done]. by repeat constructor. }
  cbn [Nat.add].
  rewrite value_open, member_string by (done || by repeat constructor).
  cbn [json.and_then].
  do 5 (rewrite members_next, member_string by (done || by repeat constructor);
        cbn [json.and_then]).
  rewrite members_next, member_empty_object by (by repeat constructor).
  cbn [json.and_then]. by rewrite members_close.
Qed.

(** ** The further properties on concrete runs *)


(** X6 at a name and a directory. *)
Lemma X6_witness :
  argparse.parse_args ["my-skill"; "--path"; "/srv/skills"]
    = argparse.Namespace "my-skill" (Some "/srv/skills") /\
  argparse.parse_args ["--path"; "/srv/skills"; "my-skill"]
    = argparse.Namespace "my-skill" (Some "/srv/skills") /\
  argparse.parse_args ["my-skill"; "--path=/srv/skills"]
    = argparse.Namespace "my-skill" (Some "/srv/skills") /\
  argparse.parse_args ["--path=/srv/skills"; "my-skill"]
    = argparse.Namespace "my-skill" (Some "/srv/skills").
Proof. exact (X6_path_option_forms "my-skill" "/srv/skills" eq_refl eq_refl). Defined.

(** X7 at the name [/srv/x]. *)
Lemma X7_witness :
  exists rest,
    calls (snd (@create_skill_structure ascii_text "/srv/x" None home_world)) =
      calls home_world ++ MkdirCall (pathlib.of_str "/srv/x") true true :: rest.
Proof. exact (@X7_absolute_name ascii_text "/srv/x" home_world eq_refl eq_refl). Defined.

(** X8 at a regular file where the skill directory would be. *)
Lemma X8_witness :
  @main ascii_text ["my-skill"] taken_world =
    (1%Z,
     emit Stderr "❌ Error: [Errno 17] File exists: '/home/u/my-skill'"
       (log_call (MkdirCall (pathlib.of_str "/home/u/my-skill") true true)
          taken_world)).
Proof.
  assert (refused_with taken_world
            (pathlib.mkPath "/" (cwd taken_world) // "my-skill") EEXIST)
    as Href by by vm_compute.
  exact (@X8_unusable_target ascii_text ["my-skill"] "my-skill" None
           taken_world EEXIST eq_refl (or_intror eq_refl) Href).
Defined.

(** X9 at a working directory that has been removed. *)
Lemma X9_witness :
  @main ascii_text ["my-skill"] lost_world =
    (1%Z, emit Stderr "❌ Error: [Errno 2] No such file or directory" lost_world).
Proof.
  exact (@X9_working_directory_gone ascii_text ["my-skill"] "my-skill" None
           lost_world eq_refl eq_refl eq_refl).
Defined.

(** X10 at a regular file where the sub-directory [src] would be. *)
Lemma X10_witness : fst (@main ascii_text ["my-skill"] blocked_world) = 1%Z.
Proof.
  assert ((["src"], Dir) ∈ scaffold_plan "my-skill") as Hin by by left.
  exact (@X10_entry_of_other_kind ascii_text ["my-skill"] "my-skill" None
           blocked_world (["src"], Dir) ["home"; "u"; "my-skill"; "src"]
           (File EmptyString) eq_refl Hin eq_refl (fun x => x)).
Defined.

(** X11 at the name of the specification's scenario. *)
Lemma X11_witness : json.well_formed (skill_json_content "my-skill").
Proof.
  assert (Forall (fun c => json_plain_char c = true)
            (list_ascii_of_string "my-skill")) as Hname
    by (repeat constructor).
  exact (X11_skill_json_is_json "my-skill" Hname).
Defined.
